(** * cli4ifx: the Infineon chat-completion provider

    A shallow embedding of [internal/llm/provider/provider.go] and
    [internal/llm/provider/infineon.go]: message filtering, conversion of
    messages and tools to the backend wire format, the retry policy, the
    non-streaming request executor, the stream translator and the provider
    factory.

    Conventions.
    - Go's [int] and [int64] are [Z]; [int64] arithmetic wraps around
      ([go.int64_wrap]).  A run-time panic is the [Panic] outcome.
    - A nil-able pointer or an optional SDK field is an [option].
    - The event channel of [stream] is the list of events sent on it, in
      order; the channel is closed when the list ends.  An event that holds
      a pointer to a tool call is modelled by the value pointed to when the
      event is sent.
    - A backend stream is the finite list of what its [Recv] calls return;
      a used-up list returns [io.EOF].
    - The backend (the [openai.Client] held by the client value) is a pair of
      oracles giving the outcome of the k-th call of one invocation.
    - [logging] calls and [time.Sleep] change neither a returned value nor an
      emitted event and are left out. *)

From Stdlib Require Import ZArith String List Lia.
From stdpp Require Import base list strings gmap.

Local Open Scope string_scope.
Local Open Scope list_scope.
Local Open Scope Z_scope.

(** ** Go runtime notions *)

Module go.

(** The result of running code that may panic. *)
Inductive outcome (A : Type) : Type :=
| Done (a : A)
| Panic (msg : string).
Arguments Done {A} a.
Arguments Panic {A} msg.

Definition bind {A B} (o : outcome A) (k : A -> outcome B) : outcome B :=
  match o with
  | Done a => k a
  | Panic msg => Panic msg
  end.

(** Two's-complement wrap-around of a 64-bit signed integer. *)
Definition int64_wrap (z : Z) : Z := (z + 2 ^ 63) mod 2 ^ 64 - 2 ^ 63.

Definition int64_mul (a b : Z) : Z := int64_wrap (a * b).

(** [x << n] at type int64 with a signed shift count: a negative count
    panics, a count of 64 or more gives 0. *)
Definition int64_shl (x n : Z) : outcome Z :=
  if bool_decide (n < 0) then Panic "negative shift amount"
  else if bool_decide (64 <= n) then Done 0
  else Done (int64_wrap (Z.shiftl x n)).

(** ** Errors

    [io_EOF] is the sentinel [io.EOF]; [apiError] is a [*shared.APIError]
    of the backend SDK; [errorString] is what [errors.New] and [fmt.Errorf]
    without [%w] build; [wrapError] is [fmt.Errorf] with one [%w] verb: the
    text before the verb and the wrapped error. *)
Record APIError : Type := {
  StatusCode : Z;
  (** [Response.Header.Get("Retry-After")]: the empty string when the
      header is absent. *)
  Response_Header_Retry_After : string
}.

Inductive error : Type :=
| io_EOF
| apiError (e : APIError)
| errorString (s : string)
| wrapError (prefix : string) (err : error).

(** [errors.As(err, &apiErr)] for [apiErr : *shared.APIError]. *)
Fixpoint errors_As_APIError (err : error) : option APIError :=
  match err with
  | apiError e => Some e
  | wrapError _ inner => errors_As_APIError inner
  | io_EOF | errorString _ => None
  end.

(** [errors.Is(err, io.EOF)]. *)
Fixpoint errors_Is_EOF (err : error) : bool :=
  match err with
  | io_EOF => true
  | wrapError _ inner => errors_Is_EOF inner
  | apiError _ | errorString _ => false
  end.

(** [time.Duration] is an int64 count of nanoseconds; [Milliseconds] is the
    truncated integer quotient. *)
Definition Duration_Milliseconds (d : Z) : Z := Z.quot d 1000000.

End go.

#[global] Instance outcome_ret : MRet go.outcome := @go.Done.
#[global] Instance outcome_bind : MBind go.outcome :=
  fun A B k o => go.bind o k.

(** ** encoding/json

    The two standard-library calls of [convertMessages], over the decoded
    form of a JSON object ([map[string]interface{}]).  [None] is a non-nil
    error. *)

Module json.

Class Codec : Type := {
  Object : Type;
  Unmarshal : string -> option Object;
  Marshal : Object -> option string
}.

End json.

(** ** internal/llm/models *)

Module models.

Definition ModelID : Type := string.
Definition ModelProvider : Type := string.

(** The four cost fields are float64 and play no part in the provider;
    they are not carried. *)
Record Model : Type := {
  ID : ModelID;
  Name : string;
  Provider : ModelProvider;
  APIModel : string;
  ContextWindow : Z;
  DefaultMaxTokens : Z;
  CanReason : bool;
  SupportsAttachments : bool
}.

Definition ProviderOpenAI : ModelProvider := "openai".
Definition ProviderInfineon : ModelProvider := "infineon".
Definition ProviderMock : ModelProvider := "__mock".

Definition zero : Model :=
  {| ID := ""; Name := ""; Provider := ""; APIModel := "";
     ContextWindow := 0; DefaultMaxTokens := 0;
     CanReason := false; SupportsAttachments := false |}.

End models.

(** ** internal/message *)

Module message.

(** Modelled from the spec: the [message] package is not among the source
    files.  Its data model (section 3): a role, an ordered sequence of
    content parts (text, binary, tool call, tool result), and the five
    finish reasons.  [FinishReasonZero] stands for the zero value of the
    type, which a declared but never assigned variable holds. *)
Inductive MessageRole : Type := User | Assistant | Tool.

Record ToolCall : Type := {
  ID : string;
  Name : string;
  Input : string
}.

Record ToolResult : Type := {
  CallID : string;
  Content : string
}.

Record BinaryContent : Type := {
  MIMEType : string;
  Data : string
}.

Inductive ContentPart : Type :=
| TextPart (text : string)
| BinaryPart (b : BinaryContent)
| ToolCallPart (c : ToolCall)
| ToolResultPart (r : ToolResult).

Record Message : Type := {
  Role : MessageRole;
  Parts : list ContentPart
}.

Inductive FinishReason : Type :=
| FinishReasonZero
| FinishReasonStop
| FinishReasonLength
| FinishReasonToolCalls
| FinishReasonContentFilter
| FinishReasonUnknown.

(** Modelled from the spec: the accessors of [Message], each selecting the
    parts of one kind in order; [Content_String] is [msg.Content().String()],
    the text of the first text part, empty when there is none. *)
Definition Content_String (m : Message) : string :=
  default "" (head (omap (fun p => match p with TextPart t => Some t | _ => None end)
                         (Parts m))).

Definition BinaryContents (m : Message) : list BinaryContent :=
  omap (fun p => match p with BinaryPart b => Some b | _ => None end) (Parts m).

Definition ToolCalls (m : Message) : list ToolCall :=
  omap (fun p => match p with ToolCallPart c => Some c | _ => None end) (Parts m).

Definition ToolResults (m : Message) : list ToolResult :=
  omap (fun p => match p with ToolResultPart r => Some r | _ => None end) (Parts m).

End message.

(** ** internal/llm/tools *)

Module tools.

(** Modelled from the spec: the [BaseTool] interface is not among the
    source files; a tool is the results of the three methods the provider
    calls on it (name, description, JSON input schema or an error). *)
Record BaseTool `{json.Codec} : Type := {
  Name : string;
  Description : string;
  JSONSchema : json.Object + go.error
}.

End tools.

(** ** The backend SDK types the provider reads and builds *)

Module openai.

(** *** Request side *)

Record ChatCompletionMessageToolCallParam : Type := {
  tc_ID : string;
  tc_Type : string;
  tc_Function_Name : string;
  tc_Function_Arguments : string
}.

(** The zero value, as [make] fills a fresh slice with. *)
Definition zeroToolCallParam : ChatCompletionMessageToolCallParam :=
  {| tc_ID := ""; tc_Type := ""; tc_Function_Name := "";
     tc_Function_Arguments := "" |}.

Record ChatCompletionAssistantMessageParam : Type := {
  am_Role : string;
  am_Content : option string;
  am_ToolCalls : list ChatCompletionMessageToolCallParam
}.

Record ChatCompletionToolMessageParam : Type := {
  tm_Role : string;
  tm_Content : string;
  tm_ToolCallID : string
}.

Inductive ChatCompletionContentPartUnionParam : Type :=
| OfText (text : string)
| OfImageURL (url : string).

Inductive ChatCompletionMessageParamUnion : Type :=
| SystemMessage (content : string)
| UserMessage (content : list ChatCompletionContentPartUnionParam)
| OfAssistant (m : ChatCompletionAssistantMessageParam)
| OfTool (m : ChatCompletionToolMessageParam).

Record ChatCompletionToolParam `{json.Codec} : Type := {
  tp_Type : string;
  tp_Function_Name : string;
  tp_Function_Description : option string;
  tp_Function_Parameters : option json.Object
}.

Definition zeroToolParam `{json.Codec} : ChatCompletionToolParam :=
  {| tp_Type := ""; tp_Function_Name := "";
     tp_Function_Description := None; tp_Function_Parameters := None |}.

Record ChatCompletionNewParams `{json.Codec} : Type := {
  Messages : list ChatCompletionMessageParamUnion;
  Model : string;
  Tools : list ChatCompletionToolParam;
  MaxTokens : option Z;
  Stream : option bool
}.

(** *** Response side *)

Record ChatCompletionMessageToolCall : Type := {
  rc_ID : string;
  rc_Function_Name : string;
  rc_Function_Arguments : string
}.

Record ChatCompletionMessage : Type := {
  Content : option string;
  ToolCalls : list ChatCompletionMessageToolCall
}.

Record ChatCompletionChoice : Type := {
  Message : ChatCompletionMessage;
  FinishReason : string
}.

Record CompletionUsage : Type := {
  PromptTokens : Z;
  CompletionTokens : Z
}.

Record ChatCompletion : Type := {
  Choices : list ChatCompletionChoice;
  Usage : CompletionUsage
}.

(** *** Streaming side *)

Record ChatCompletionChunkChoiceDeltaToolCall : Type := {
  Index : Z;
  d_ID : option string;
  d_Function_Name : option string;
  d_Function_Arguments : option string
}.

Record ChatCompletionChunkChoiceDelta : Type := {
  d_Content : option string;
  d_ToolCalls : list ChatCompletionChunkChoiceDeltaToolCall
}.

Record ChatCompletionChunkChoice : Type := {
  Delta : ChatCompletionChunkChoiceDelta;
  c_FinishReason : string
}.

Record ChatCompletionChunk : Type := {
  c_Choices : list ChatCompletionChunkChoice
}.

(** A stream handle is what its successive [Recv] calls return: a chunk or
    an error each; once the list is used up [Recv] returns [io.EOF]. *)
Definition ChatCompletionStream : Type :=
  list (ChatCompletionChunk + go.error).

(** The client: the outcome of the call made at attempt number [k] of one
    invocation, for the non-streaming and the streaming endpoint. *)
Record Client `{json.Codec} : Type := {
  CreateChatCompletion :
    Z -> ChatCompletionNewParams -> ChatCompletion + go.error;
  CreateChatCompletionStream :
    Z -> ChatCompletionNewParams -> ChatCompletionStream + go.error
}.

End openai.

(** ** provider.go: constants and types *)

Definition maxRetries : Z := 8.

Inductive EventType : Type :=
| EventContentStart
| EventToolUseStart
| EventToolUseDelta
| EventToolUseStop
| EventContentDelta
| EventThinkingDelta
| EventContentStop
| EventComplete
| EventError
| EventWarning.

#[global] Instance EventType_eq_dec : EqDecision EventType.
Proof. solve_decision. Defined.

Record TokenUsage : Type := {
  InputTokens : Z;
  OutputTokens : Z;
  CacheCreationTokens : Z;
  CacheReadTokens : Z
}.

Record ProviderResponse : Type := {
  Content : string;
  ToolCalls : list message.ToolCall;
  Usage : TokenUsage;
  FinishReason : message.FinishReason
}.

(** [Typ] is the field [Type]. *)
Record ProviderEvent : Type := {
  Typ : EventType;
  ev_Content : string;
  Thinking : string;
  Response : option ProviderResponse;
  ToolCall : option message.ToolCall;
  Error : option go.error
}.

(** The zero values of the declarations [var usage TokenUsage] and of the
    event fields a composite literal leaves out. *)
Definition zeroTokenUsage : TokenUsage :=
  {| InputTokens := 0; OutputTokens := 0;
     CacheCreationTokens := 0; CacheReadTokens := 0 |}.

Definition event (t : EventType) : ProviderEvent :=
  {| Typ := t; ev_Content := ""; Thinking := ""; Response := None;
     ToolCall := None; Error := None |}.

Definition errorEvent (err : go.error) : ProviderEvent :=
  {| Typ := EventError; ev_Content := ""; Thinking := ""; Response := None;
     ToolCall := None; Error := Some err |}.

Definition contentEvent (t : EventType) (text : string) : ProviderEvent :=
  {| Typ := t; ev_Content := text; Thinking := ""; Response := None;
     ToolCall := None; Error := None |}.

Definition toolEvent (t : EventType) (call : message.ToolCall) : ProviderEvent :=
  {| Typ := t; ev_Content := ""; Thinking := ""; Response := None;
     ToolCall := Some call; Error := None |}.

Definition completeEvent (r : ProviderResponse) : ProviderEvent :=
  {| Typ := EventComplete; ev_Content := ""; Thinking := "";
     Response := Some r; ToolCall := None; Error := None |}.

(** The interface [ProviderClient]: the two methods a backend client has.
    Either may, as any Go code, end in a panic. *)
Class ProviderClient `{json.Codec} (C : Type) : Type := {
  send : C -> list message.Message -> list tools.BaseTool ->
         go.outcome (option ProviderResponse * option go.error);
  stream : C -> list message.Message -> list tools.BaseTool ->
           go.outcome (list ProviderEvent)
}.

(** ** infineon.go: options and client *)

Record infineonOptions : Type := {
  baseURL : string;
  disableCache : bool;
  extraHeaders : option (gmap string string)
}.

Definition InfineonOption : Type := infineonOptions -> infineonOptions.

Definition WithInfineonBaseURL (url : string) : InfineonOption :=
  fun options =>
    {| baseURL := url; disableCache := disableCache options;
       extraHeaders := extraHeaders options |}.

Definition WithInfineonExtraHeaders (headers : option (gmap string string))
  : InfineonOption :=
  fun options =>
    {| baseURL := baseURL options; disableCache := disableCache options;
       extraHeaders := headers |}.

Definition WithInfineonDisableCache : InfineonOption :=
  fun options =>
    {| baseURL := baseURL options; disableCache := true;
       extraHeaders := extraHeaders options |}.

(** [option.RequestOption] values the client constructor passes on. *)
Inductive RequestOption : Type :=
| WithAPIKey_opt (key : string)
| WithBaseURL_opt (url : string)
| WithHeader_opt (key value : string).

Section Provider.

Context `{codec : json.Codec}.

(** [time.ParseDuration] of the Go standard library: the duration in
    nanoseconds, or [None] when the text does not parse. *)
Variable time_ParseDuration : string -> option Z.

(** [BinaryContent.String(provider)] of the absent [message] package: the
    attachment reference sent for a binary part. *)
Variable BinaryContent_String :
  message.BinaryContent -> models.ModelProvider -> string.

(** [openai.NewClient] of the backend SDK. *)
Variable openai_NewClient : list RequestOption -> openai.Client.

(** The option type and the client of the OpenAI backend, whose file is
    not among the sources. *)
Variable OpenAIOption : Type.

Record providerClientOptions : Type := {
  apiKey : string;
  model : models.Model;
  maxTokens : Z;
  systemMessage : string;
  openaiOptions : list OpenAIOption;
  infineonOptions_ : list InfineonOption
}.

Definition ProviderClientOption : Type :=
  providerClientOptions -> providerClientOptions.

Record infineonClient : Type := {
  providerOptions : providerClientOptions;
  options : infineonOptions;
  client : openai.Client
}.

Definition newInfineonClient (opts : providerClientOptions) : infineonClient :=
  let infineonOpts :=
    foldl (fun acc (o : InfineonOption) => o acc)
          {| baseURL := "https://api.infineon.ai/v1"; disableCache := false;
             extraHeaders := None |}
          (infineonOptions_ opts) in
  let openaiClientOptions : list RequestOption := [] in
  let openaiClientOptions :=
    if bool_decide (apiKey opts <> "")
    then openaiClientOptions ++ [WithAPIKey_opt (apiKey opts)]
    else openaiClientOptions in
  let openaiClientOptions :=
    if bool_decide (baseURL infineonOpts <> "")
    then openaiClientOptions ++ [WithBaseURL_opt (baseURL infineonOpts)]
    else openaiClientOptions in
  let openaiClientOptions :=
    match extraHeaders infineonOpts with
    | Some headers =>
      foldl (fun acc kv => acc ++ [WithHeader_opt kv.1 kv.2])
            openaiClientOptions (map_to_list headers)
    | None => openaiClientOptions
    end in
  {| providerOptions := opts; options := infineonOpts;
     client := openai_NewClient openaiClientOptions |}.

(** *** convertMessages *)

(** The loop over [msg.ToolCalls()]: [out] is the slice made with the
    length of the calls, [i] the index of the head of [calls]. *)
Fixpoint fillToolCalls (i : nat) (calls : list message.ToolCall)
    (out : list openai.ChatCompletionMessageToolCallParam)
  : list openai.ChatCompletionMessageToolCallParam :=
  match calls with
  | [] => out
  | call :: rest =>
    match json.Unmarshal (message.Input call) with
    | None => fillToolCalls (S i) rest out
    | Some args =>
      match json.Marshal args with
      | None => fillToolCalls (S i) rest out
      | Some argsJSON =>
        fillToolCalls (S i) rest
          (<[i := {| openai.tc_ID := message.ID call;
                     openai.tc_Type := "function";
                     openai.tc_Function_Name := message.Name call;
                     openai.tc_Function_Arguments := argsJSON |}]> out)
      end
    end
  end.

Definition convertMessage (msg : message.Message)
  : list openai.ChatCompletionMessageParamUnion :=
  match message.Role msg with
  | message.User =>
    let content := [openai.OfText (message.Content_String msg)] in
    let content :=
      foldl (fun acc binaryContent =>
               acc ++ [openai.OfImageURL
                         (BinaryContent_String binaryContent
                                               models.ProviderInfineon)])
            content (message.BinaryContents msg) in
    [openai.UserMessage content]
  | message.Assistant =>
    let assistantContent :=
      if bool_decide (message.Content_String msg <> "")
      then Some (message.Content_String msg) else None in
    let calls := message.ToolCalls msg in
    let assistantToolCalls :=
      if bool_decide (0 < length calls)%nat
      then fillToolCalls 0 calls
             (replicate (length calls) openai.zeroToolCallParam)
      else [] in
    [openai.OfAssistant
       {| openai.am_Role := "assistant";
          openai.am_Content := assistantContent;
          openai.am_ToolCalls := assistantToolCalls |}]
  | message.Tool =>
    foldl (fun acc result =>
             acc ++ [openai.OfTool
                       {| openai.tm_Role := "tool";
                          openai.tm_Content := message.Content result;
                          openai.tm_ToolCallID := message.CallID result |}])
          [] (message.ToolResults msg)
  end.

Definition convertMessages (i : infineonClient)
    (messages : list message.Message)
  : list openai.ChatCompletionMessageParamUnion :=
  foldl (fun openaiMessages msg => openaiMessages ++ convertMessage msg)
        [openai.SystemMessage (systemMessage (providerOptions i))]
        messages.

(** *** convertTools *)

Fixpoint fillTools (idx : nat) (tools : list tools.BaseTool)
    (openaiTools : list openai.ChatCompletionToolParam)
  : list openai.ChatCompletionToolParam :=
  match tools with
  | [] => openaiTools
  | tool :: rest =>
    match tools.JSONSchema tool with
    | inr _ => fillTools (S idx) rest openaiTools
    | inl schema =>
      fillTools (S idx) rest
        (<[idx := {| openai.tp_Type := "function";
                     openai.tp_Function_Name := tools.Name tool;
                     openai.tp_Function_Description :=
                       Some (tools.Description tool);
                     openai.tp_Function_Parameters := Some schema |}]>
           openaiTools)
    end
  end.

Definition convertTools (i : infineonClient) (tools : list tools.BaseTool)
  : list openai.ChatCompletionToolParam :=
  if bool_decide (length tools = 0%nat) then []
  else fillTools 0 tools (replicate (length tools) openai.zeroToolParam).

(** *** finishReason *)

Definition finishReason (reason : string) : message.FinishReason :=
  if bool_decide (reason = "stop") then message.FinishReasonStop
  else if bool_decide (reason = "length") then message.FinishReasonLength
  else if bool_decide (reason = "tool_calls")
       then message.FinishReasonToolCalls
  else if bool_decide (reason = "content_filter")
       then message.FinishReasonContentFilter
  else message.FinishReasonUnknown.

(** *** preparedParams *)

Definition preparedParams (i : infineonClient)
    (messages : list openai.ChatCompletionMessageParamUnion)
    (tools : list openai.ChatCompletionToolParam)
  : openai.ChatCompletionNewParams :=
  {| openai.Messages := messages;
     openai.Model := models.APIModel (model (providerOptions i));
     openai.Tools := if bool_decide (0 < length tools)%nat then tools else [];
     openai.MaxTokens :=
       if bool_decide (0 < maxTokens (providerOptions i))
       then Some (maxTokens (providerOptions i)) else None;
     openai.Stream := None |}.

(** *** shouldRetry *)

(** [int64(1000 * (1 << attempts))]: the constant 1 takes the type int64 of
    the conversion, so shift and product are int64 operations. *)
Definition backoff (attempts : Z) : go.outcome Z :=
  p ← go.int64_shl 1 attempts; go.Done (go.int64_mul 1000 p).

Definition shouldRetry (attempts : Z) (err : go.error)
  : go.outcome (bool * Z * option go.error) :=
  match go.errors_As_APIError err with
  | None => go.Done (false, 0, None)
  | Some apiErr =>
    if bool_decide (go.StatusCode apiErr = 429) then
      let retryAfterHeader := go.Response_Header_Retry_After apiErr in
      match
        (if bool_decide (retryAfterHeader <> "")
         then time_ParseDuration (retryAfterHeader +:+ "s") else None)
      with
      | Some retryAfter =>
        go.Done (true, go.Duration_Milliseconds retryAfter, None)
      | None =>
        b ← backoff attempts; go.Done (true, b, None)
      end
    else if bool_decide (500 <= go.StatusCode apiErr
                         /\ go.StatusCode apiErr < 600) then
      if bool_decide (maxRetries - 1 <= attempts) then
        go.Done (false, 0, Some (go.wrapError "max retries reached: " err))
      else
        b ← backoff attempts; go.Done (true, b, None)
    else go.Done (false, 0, None)
  end.

(** *** The retry loop of send and stream

    Both functions run the same loop,
    [for attempts := 0; attempts < maxRetries; attempts++], around their
    backend call.  [more] is the number of iterations left after the
    current one, so the loop is entered with [maxRetries - 1].  The result
    is the value of a successful call (the [break]) or the error the
    function ends with: [retryErr] or [err] returned from inside the loop,
    or [err] found non-nil after the last iteration. *)
Fixpoint attemptLoop {A : Type} (call : Z -> A + go.error)
    (more : nat) (attempts : Z) : go.outcome (A + go.error) :=
  match call attempts with
  | inl v => go.Done (inl v)
  | inr err =>
    r ← shouldRetry attempts err;
    match r with
    | (_, _, Some retryErr) => go.Done (inr retryErr)
    | (false, _, None) => go.Done (inr err)
    | (true, _, None) =>
      match more with
      | O => go.Done (inr err)
      | S more' => attemptLoop call more' (attempts + 1)
      end
    end
  end.

(** *** toolCalls and usage *)

Definition toolCalls (completion : openai.ChatCompletion)
  : list message.ToolCall :=
  match openai.Choices completion with
  | [] => []
  | choice :: _ =>
    if bool_decide (length (openai.ToolCalls (openai.Message choice)) = 0%nat)
    then []
    else
      map (fun call =>
             {| message.ID := openai.rc_ID call;
                message.Name := openai.rc_Function_Name call;
                message.Input := openai.rc_Function_Arguments call |})
          (openai.ToolCalls (openai.Message choice))
  end.

Definition usage (completion : openai.ChatCompletion) : TokenUsage :=
  {| InputTokens := openai.PromptTokens (openai.Usage completion);
     OutputTokens := openai.CompletionTokens (openai.Usage completion);
     CacheCreationTokens := 0;
     CacheReadTokens := 0 |}.

(** *** send *)

(** The first half of [send]: conversion, parameters and the retry loop
    around [CreateChatCompletion]. *)
Definition requestCompletion (i : infineonClient)
    (messages : list message.Message) (tools : list tools.BaseTool)
  : go.outcome (openai.ChatCompletion + go.error) :=
  let openaiMessages := convertMessages i messages in
  let openaiTools := convertTools i tools in
  let params := preparedParams i openaiMessages openaiTools in
  attemptLoop
    (fun attempts => openai.CreateChatCompletion (client i) attempts params)
    (Z.to_nat (maxRetries - 1)) 0.

Definition infineon_send (i : infineonClient)
    (messages : list message.Message) (tools : list tools.BaseTool)
  : go.outcome (option ProviderResponse * option go.error) :=
  r ← requestCompletion i messages tools;
  match r with
  | inr err => go.Done (None, Some err)
  | inl completion =>
    match openai.Choices completion with
    | [] => go.Done (None, Some (go.errorString "no choices returned"))
    | choice :: _ =>
      let content :=
        match openai.Content (openai.Message choice) with
        | Some c => c
        | None => ""
        end in
      go.Done
        (Some {| Content := content;
                 ToolCalls := toolCalls completion;
                 Usage := usage completion;
                 FinishReason := finishReason (openai.FinishReason choice) |},
         None)
    end
  end.

(** *** stream *)

(** The variables of the consumption loop. *)
Record streamState : Type := {
  st_content : string;
  st_toolCalls : list message.ToolCall;
  st_usage : TokenUsage;
  st_finishReason : message.FinishReason
}.

Definition initialState : streamState :=
  {| st_content := ""; st_toolCalls := []; st_usage := zeroTokenUsage;
     st_finishReason := message.FinishReasonZero |}.

Definition setName (name : string) (c : message.ToolCall) : message.ToolCall :=
  {| message.ID := message.ID c; message.Name := name;
     message.Input := message.Input c |}.

Definition addInput (arguments : string) (c : message.ToolCall)
  : message.ToolCall :=
  {| message.ID := message.ID c; message.Name := message.Name c;
     message.Input := message.Input c +:+ arguments |}.

(** The body of the loop over [choice.Delta.ToolCalls] is two if
    statements in sequence.  The first starts a tool call when the index is
    outside the slice and the delta carries an identifier. *)
Definition startToolCall (toolCalls : list message.ToolCall)
    (toolCallDelta : openai.ChatCompletionChunkChoiceDeltaToolCall)
  : list message.ToolCall * list ProviderEvent :=
  let index := openai.Index toolCallDelta in
  if bool_decide (index < 0 \/ Z.of_nat (length toolCalls) <= index) then
    match openai.d_ID toolCallDelta with
    | Some id =>
      let toolCall :=
        {| message.ID := id; message.Name := ""; message.Input := "" |} in
      (toolCalls ++ [toolCall], [toolEvent EventToolUseStart toolCall])
    | None => (toolCalls, [])
    end
  else (toolCalls, []).

(** The second updates the tool call at the index when the index is inside
    the slice, as the first statement left it. *)
Definition updateToolCall (toolCalls : list message.ToolCall)
    (toolCallDelta : openai.ChatCompletionChunkChoiceDeltaToolCall)
  : list message.ToolCall * list ProviderEvent :=
  let index := openai.Index toolCallDelta in
  if bool_decide (0 <= index /\ index < Z.of_nat (length toolCalls)) then
    let idx := Z.to_nat index in
    let toolCalls :=
      match openai.d_Function_Name toolCallDelta with
      | Some name => alter (setName name) idx toolCalls
      | None => toolCalls
      end in
    match openai.d_Function_Arguments toolCallDelta with
    | Some arguments =>
      let toolCalls := alter (addInput arguments) idx toolCalls in
      (toolCalls,
       [ {| Typ := EventToolUseDelta; ev_Content := ""; Thinking := "";
            Response := None;
            ToolCall :=
              (fun c => {| message.ID := message.ID c;
                           message.Name := message.Name c;
                           message.Input := arguments |})
                <$> toolCalls !! idx;
            Error := None |} ])
    | None => (toolCalls, [])
    end
  else (toolCalls, []).

(** The loop body: the updated slice and the events sent, in order. *)
Definition handleToolCallDelta (toolCalls : list message.ToolCall)
    (toolCallDelta : openai.ChatCompletionChunkChoiceDeltaToolCall)
  : list message.ToolCall * list ProviderEvent :=
  let '(toolCalls, started) := startToolCall toolCalls toolCallDelta in
  let '(toolCalls, updated) := updateToolCall toolCalls toolCallDelta in
  (toolCalls, started ++ updated).

Definition handleToolCallDeltas (toolCalls : list message.ToolCall)
    (deltas : list openai.ChatCompletionChunkChoiceDeltaToolCall)
  : list message.ToolCall * list ProviderEvent :=
  foldl (fun '(toolCalls, events) toolCallDelta =>
           let '(toolCalls, sent) :=
             handleToolCallDelta toolCalls toolCallDelta in
           (toolCalls, events ++ sent))
        (toolCalls, []) deltas.

(** One iteration of the consumption loop on a received chunk. *)
Definition handleChunk (st : streamState) (chunk : openai.ChatCompletionChunk)
  : streamState * list ProviderEvent :=
  match openai.c_Choices chunk with
  | [] => (st, [])
  | choice :: _ =>
    let '(content, contentEvents) :=
      match openai.d_Content (openai.Delta choice) with
      | Some text =>
        (st_content st +:+ text, [contentEvent EventContentDelta text])
      | None => (st_content st, [])
      end in
    let '(toolCalls, toolEvents) :=
      if bool_decide (0 < length (openai.d_ToolCalls (openai.Delta choice)))%nat
      then handleToolCallDeltas (st_toolCalls st)
                                (openai.d_ToolCalls (openai.Delta choice))
      else (st_toolCalls st, []) in
    let finishReason' :=
      if bool_decide (openai.c_FinishReason choice <> "")
      then finishReason (openai.c_FinishReason choice)
      else st_finishReason st in
    ({| st_content := content; st_toolCalls := toolCalls;
        st_usage := st_usage st; st_finishReason := finishReason' |},
     contentEvents ++ toolEvents)
  end.

(** What follows the loop on a clean end of stream. *)
Definition finishStream (st : streamState) : list ProviderEvent :=
  map (toolEvent EventToolUseStop) (st_toolCalls st)
  ++ [event EventContentStop;
      completeEvent {| Content := st_content st;
                       ToolCalls := st_toolCalls st;
                       Usage := st_usage st;
                       FinishReason := st_finishReason st |}].

(** The consumption loop, by recursion on what [Recv] will return. *)
Fixpoint consume (s : openai.ChatCompletionStream) (st : streamState)
  : list ProviderEvent :=
  match s with
  | [] => finishStream st
  | inr err :: _ =>
    if go.errors_Is_EOF err then finishStream st else [errorEvent err]
  | inl chunk :: rest =>
    let '(st, sent) := handleChunk st chunk in
    sent ++ consume rest st
  end.

Definition setStream (params : openai.ChatCompletionNewParams)
  : openai.ChatCompletionNewParams :=
  {| openai.Messages := openai.Messages params;
     openai.Model := openai.Model params;
     openai.Tools := openai.Tools params;
     openai.MaxTokens := openai.MaxTokens params;
     openai.Stream := Some true |}.

(** The first half of the goroutine of [stream]: conversion, parameters and
    the retry loop around [CreateChatCompletionStream]. *)
Definition openStream (i : infineonClient)
    (messages : list message.Message) (tools : list tools.BaseTool)
  : go.outcome (openai.ChatCompletionStream + go.error) :=
  let openaiMessages := convertMessages i messages in
  let openaiTools := convertTools i tools in
  let params := setStream (preparedParams i openaiMessages openaiTools) in
  attemptLoop
    (fun attempts =>
       openai.CreateChatCompletionStream (client i) attempts params)
    (Z.to_nat (maxRetries - 1)) 0.

Definition infineon_stream (i : infineonClient)
    (messages : list message.Message) (tools : list tools.BaseTool)
  : go.outcome (list ProviderEvent) :=
  r ← openStream i messages tools;
  match r with
  | inr err => go.Done [errorEvent err]
  | inl stream => go.Done (event EventContentStart :: consume stream initialState)
  end.

#[export] Instance InfineonClient : ProviderClient infineonClient :=
  {| send := infineon_send; stream := infineon_stream |}.

(** ** provider.go: baseProvider and NewProvider *)

Record baseProvider (C : Type) : Type := {
  bp_options : providerClientOptions;
  bp_client : C
}.
Arguments bp_options {C} _.
Arguments bp_client {C} _.

Fixpoint cleanLoop (messages cleaned : list message.Message)
  : list message.Message :=
  match messages with
  | [] => cleaned
  | msg :: rest =>
    if bool_decide (length (message.Parts msg) = 0%nat)
    then cleanLoop rest cleaned
    else cleanLoop rest (cleaned ++ [msg])
  end.

Definition cleanMessages (messages : list message.Message)
  : list message.Message :=
  cleanLoop messages [].

Definition SendMessages {C} `{!ProviderClient C} (p : baseProvider C)
    (messages : list message.Message) (tools : list tools.BaseTool)
  : go.outcome (option ProviderResponse * option go.error) :=
  let messages := cleanMessages messages in
  send (bp_client p) messages tools.

Definition Model {C} (p : baseProvider C) : models.Model :=
  model (bp_options p).

Definition StreamResponse {C} `{!ProviderClient C} (p : baseProvider C)
    (messages : list message.Message) (tools : list tools.BaseTool)
  : go.outcome (list ProviderEvent) :=
  let messages := cleanMessages messages in
  stream (bp_client p) messages tools.

(** The interface [Provider]: a value of any [baseProvider C] seen through
    its three methods. *)
Record Provider : Type := {
  Provider_SendMessages :
    list message.Message -> list tools.BaseTool ->
    go.outcome (option ProviderResponse * option go.error);
  Provider_StreamResponse :
    list message.Message -> list tools.BaseTool ->
    go.outcome (list ProviderEvent);
  Provider_Model : models.Model
}.

Definition asProvider {C} `{!ProviderClient C} (p : baseProvider C) : Provider :=
  {| Provider_SendMessages := SendMessages p;
     Provider_StreamResponse := StreamResponse p;
     Provider_Model := Model p |}.

(** The OpenAI client, whose file is not among the sources. *)
Variable OpenAIClient : Type.
Context `{openaiProviderClient : !ProviderClient OpenAIClient}.
Variable newOpenAIClient : providerClientOptions -> OpenAIClient.

Definition NewProvider (providerName : models.ModelProvider)
    (opts : list ProviderClientOption)
  : go.outcome (option Provider * option go.error) :=
  let clientOptions :=
    foldl (fun acc (o : ProviderClientOption) => o acc)
          {| apiKey := ""; model := models.zero; maxTokens := 0;
             systemMessage := ""; openaiOptions := [];
             infineonOptions_ := [] |}
          opts in
  if bool_decide (providerName = models.ProviderOpenAI) then
    go.Done (Some (asProvider {| bp_options := clientOptions;
                                 bp_client := newOpenAIClient clientOptions |}),
             None)
  else if bool_decide (providerName = models.ProviderInfineon) then
    go.Done (Some (asProvider {| bp_options := clientOptions;
                                 bp_client := newInfineonClient clientOptions |}),
             None)
  else if bool_decide (providerName = models.ProviderMock) then
    go.Panic "not implemented"
  else
    go.Done (None,
             Some (go.errorString ("provider not supported: " +:+ providerName))).

Definition WithAPIKey (key : string) : ProviderClientOption :=
  fun options =>
    {| apiKey := key; model := model options; maxTokens := maxTokens options;
       systemMessage := systemMessage options;
       openaiOptions := openaiOptions options;
       infineonOptions_ := infineonOptions_ options |}.


Definition WithMaxTokens (n : Z) : ProviderClientOption :=
  fun options =>
    {| apiKey := apiKey options; model := model options; maxTokens := n;
       systemMessage := systemMessage options;
       openaiOptions := openaiOptions options;
       infineonOptions_ := infineonOptions_ options |}.

Definition WithSystemMessage (text : string) : ProviderClientOption :=
  fun options =>
    {| apiKey := apiKey options; model := model options;
       maxTokens := maxTokens options; systemMessage := text;
       openaiOptions := openaiOptions options;
       infineonOptions_ := infineonOptions_ options |}.

Definition WithOpenAIOptions (os : list OpenAIOption) : ProviderClientOption :=
  fun options =>
    {| apiKey := apiKey options; model := model options;
       maxTokens := maxTokens options;
       systemMessage := systemMessage options; openaiOptions := os;
       infineonOptions_ := infineonOptions_ options |}.

Definition WithInfineonOptions (os : list InfineonOption) : ProviderClientOption :=
  fun options =>
    {| apiKey := apiKey options; model := model options;
       maxTokens := maxTokens options;
       systemMessage := systemMessage options;
       openaiOptions := openaiOptions options; infineonOptions_ := os |}.

(** * Properties *)

(** ** Integer helpers *)

Lemma int64_wrap_small (z : Z) :
  - 2 ^ 63 <= z < 2 ^ 63 -> go.int64_wrap z = z.
Proof.
  intros Hz. unfold go.int64_wrap.
  rewrite Z.mod_small; lia.
Qed.

Lemma pow2_le_53 (n : Z) : 0 <= n <= 53 -> 0 < 2 ^ n <= 2 ^ 53.
Proof.
  intros Hn. split.
  - apply Z.pow_pos_nonneg; lia.
  - apply Z.pow_le_mono_r; lia.
Qed.

Lemma backoff_in_range (attempts : Z) :
  0 <= attempts <= 53 -> backoff attempts = go.Done (1000 * 2 ^ attempts).
Proof.
  intros Ha. unfold backoff, go.int64_shl.
  rewrite bool_decide_eq_false_2 by lia.
  rewrite bool_decide_eq_false_2 by lia.
  cbn. f_equal. unfold go.int64_mul.
  rewrite Z.shiftl_1_l.
  pose proof (pow2_le_53 attempts Ha) as Hp.
  assert (2 ^ 53 = 9007199254740992) as E53 by reflexivity.
  assert (2 ^ 63 = 9223372036854775808) as E63 by reflexivity.
  rewrite (int64_wrap_small (2 ^ attempts)) by lia.
  apply int64_wrap_small. lia.
Qed.

Lemma backoff_nonneg (attempts : Z) :
  0 <= attempts -> exists b, backoff attempts = go.Done b.
Proof.
  intros Ha. unfold backoff, go.int64_shl.
  rewrite bool_decide_eq_false_2 by lia.
  case_bool_decide; cbn; eauto.
Qed.

(** ** shouldRetry *)

(** From attempt 0 on the retry decision never panics. *)
Lemma shouldRetry_done (attempts : Z) (err : go.error) :
  0 <= attempts -> exists r, shouldRetry attempts err = go.Done r.
Proof.
  intros Ha. unfold shouldRetry.
  destruct (go.errors_As_APIError err) as [apiErr|]; [|eauto].
  destruct (backoff_nonneg attempts Ha) as [b Hb].
  repeat case_bool_decide; try rewrite Hb; cbn; eauto.
  all: destruct (time_ParseDuration _); try rewrite Hb; cbn; eauto.
Qed.

(** The parsed retry-after duration, when the 429 branch finds one. *)
Definition retryAfterOf (apiErr : go.APIError) : option Z :=
  if bool_decide (go.Response_Header_Retry_After apiErr <> "")
  then time_ParseDuration (go.Response_Header_Retry_After apiErr +:+ "s")
  else None.

(** C4, as amended: for a recognized API error with status 429 and no
    usable retry-after value (header absent, or its text followed by s is
    not a duration), the decision at every attempt index from 0 to 53 is
    retry with delay 1000 * 2^attempts milliseconds (1000 at 0, 8000 at 3),
    and at every non-negative attempt index it is retry with no fatal error;
    when the header text followed by s parses as a duration, the delay is
    that duration in whole milliseconds, at every attempt index. *)
Theorem C4_rate_limit_decision (attempts : Z) (err : go.error)
    (apiErr : go.APIError) :
  go.errors_As_APIError err = Some apiErr ->
  go.StatusCode apiErr = 429 ->
  (retryAfterOf apiErr = None ->
     (0 <= attempts <= 53 ->
        shouldRetry attempts err = go.Done (true, 1000 * 2 ^ attempts, None))
     /\ (0 <= attempts ->
           exists delay, shouldRetry attempts err = go.Done (true, delay, None)))
  /\ (forall retryAfter, retryAfterOf apiErr = Some retryAfter ->
        shouldRetry attempts err
        = go.Done (true, go.Duration_Milliseconds retryAfter, None)).
Proof.
  intros Has Hstatus. unfold shouldRetry. rewrite Has.
  rewrite (bool_decide_eq_true_2 (go.StatusCode apiErr = 429) Hstatus).
  fold (retryAfterOf apiErr).
  split.
  - intros ->. split.
    + intros Ha. rewrite (backoff_in_range attempts Ha). reflexivity.
    + intros Ha. destruct (backoff_nonneg attempts Ha) as [b ->].
      cbn. eauto.
  - intros retryAfter ->. reflexivity.
Qed.

(** C5: for a recognized API error with status in [500,600), the decision
    is retry with delay 1000 * 2^attempts milliseconds while the attempt
    index (counted from 0) is below maxRetries - 1 = 7; from 7 on it is no
    retry, together with a fatal error that wraps the original error. *)
Theorem C5_server_error_decision (attempts : Z) (err : go.error)
    (apiErr : go.APIError) :
  go.errors_As_APIError err = Some apiErr ->
  500 <= go.StatusCode apiErr < 600 ->
  maxRetries = 8
  /\ (0 <= attempts < maxRetries - 1 ->
        shouldRetry attempts err = go.Done (true, 1000 * 2 ^ attempts, None))
  /\ (maxRetries - 1 <= attempts ->
        shouldRetry attempts err
        = go.Done (false, 0,
                   Some (go.wrapError "max retries reached: " err))).
Proof.
  intros Has Hstatus. unfold shouldRetry. rewrite Has.
  rewrite bool_decide_eq_false_2 by lia.
  rewrite bool_decide_eq_true_2 by lia.
  split; [reflexivity|]. unfold maxRetries. split; intros Ha.
  - rewrite bool_decide_eq_false_2 by lia.
    rewrite backoff_in_range by lia. reflexivity.
  - rewrite bool_decide_eq_true_2 by lia. reflexivity.
Qed.

(** ** cleanMessages *)

(** A message that carries at least one content part. *)
Definition hasParts (msg : message.Message) : Prop :=
  length (message.Parts msg) <> 0%nat.

#[global] Instance hasParts_dec (msg : message.Message) : Decision (hasParts msg).
Proof. unfold hasParts. apply _. Defined.

Lemma cleanLoop_filter (messages cleaned : list message.Message) :
  cleanLoop messages cleaned = cleaned ++ filter hasParts messages.
Proof.
  revert cleaned.
  induction messages as [|msg rest IH]; intros cleaned; cbn [cleanLoop].
  - rewrite filter_nil, app_nil_r. reflexivity.
  - case_bool_decide as Hlen; rewrite IH.
    + rewrite filter_cons_False by (unfold hasParts; tauto). reflexivity.
    + rewrite filter_cons_True by exact Hlen.
      rewrite <- (assoc_L (++)). reflexivity.
Qed.

Lemma cleanMessages_filter (messages : list message.Message) :
  cleanMessages messages = filter hasParts messages.
Proof. unfold cleanMessages. apply cleanLoop_filter. Qed.

(** C6: SendMessages and StreamResponse hand the client the cleaned list;
    the cleaned list is the input with exactly the messages without parts
    removed (so the others keep their relative order), every message in it
    has at least one part, and cleaning a cleaned list changes nothing. *)
Theorem C6_empty_messages_filtered {C : Type} `{!ProviderClient C}
    (p : baseProvider C) (messages : list message.Message)
    (tools : list tools.BaseTool) :
  SendMessages p messages tools
  = send (bp_client p) (cleanMessages messages) tools
  /\ StreamResponse p messages tools
     = stream (bp_client p) (cleanMessages messages) tools
  /\ cleanMessages messages = filter hasParts messages
  /\ cleanMessages messages `sublist_of` messages
  /\ Forall hasParts (cleanMessages messages)
  /\ cleanMessages (cleanMessages messages) = cleanMessages messages.
Proof.
  split; [reflexivity|]. split; [reflexivity|].
  rewrite !cleanMessages_filter.
  split; [reflexivity|]. split; [apply sublist_filter|].
  split.
  - apply Forall_forall. intros msg Hin.
    apply list_elem_of_filter in Hin. tauto.
  - apply list_filter_filter_l. tauto.
Qed.

(** ** NewProvider *)

(** C10: with the mock identifier NewProvider panics, returning neither a
    provider nor an error; with an identifier other than openai, infineon
    and __mock it returns no provider and an error whose text names the
    identifier. *)
Theorem C10_factory_dispatch (providerName : models.ModelProvider)
    (opts : list ProviderClientOption) :
  (providerName = "__mock" ->
     NewProvider providerName opts = go.Panic "not implemented")
  /\ (providerName <> "openai" -> providerName <> "infineon" ->
      providerName <> "__mock" ->
      NewProvider providerName opts
      = go.Done (None,
                 Some (go.errorString
                         ("provider not supported: " +:+ providerName)))).
Proof.
  unfold NewProvider, models.ProviderOpenAI, models.ProviderInfineon,
    models.ProviderMock.
  split.
  - intros ->. reflexivity.
  - intros H1 H2 H3.
    rewrite (bool_decide_eq_false_2 _ H1), (bool_decide_eq_false_2 _ H2),
      (bool_decide_eq_false_2 _ H3).
    reflexivity.
Qed.

(** ** The retry loop *)

(** Entered at a non-negative attempt index the loop ends without a
    panic. *)
Lemma attemptLoop_done {A : Type} (call : Z -> A + go.error)
    (more : nat) (attempts : Z) :
  0 <= attempts -> exists r, attemptLoop call more attempts = go.Done r.
Proof.
  revert attempts.
  induction more as [|more IH]; intros attempts Ha; cbn [attemptLoop];
    destruct (call attempts) as [v|err]; eauto;
    destruct (shouldRetry_done attempts err Ha) as [[[retry delay] fatal] ->];
    cbn; destruct fatal, retry; eauto.
  apply IH. lia.
Qed.

(** A call that succeeds at the first attempt ends the loop there. *)
Lemma attemptLoop_first {A : Type} (call : Z -> A + go.error)
    (more : nat) (attempts : Z) (v : A) :
  call attempts = inl v -> attemptLoop call more attempts = go.Done (inl v).
Proof. intros H. destruct more; cbn [attemptLoop]; rewrite H; reflexivity. Qed.

Lemma openStream_first (i : infineonClient) (messages : list message.Message)
    (tools : list tools.BaseTool) (s : openai.ChatCompletionStream) :
  openai.CreateChatCompletionStream (client i) 0
    (setStream (preparedParams i (convertMessages i messages)
                               (convertTools i tools)))
  = inl s ->
  openStream i messages tools = go.Done (inl s).
Proof. intros H. unfold openStream. apply attemptLoop_first. exact H. Qed.

Lemma requestCompletion_first (i : infineonClient)
    (messages : list message.Message) (tools : list tools.BaseTool)
    (completion : openai.ChatCompletion) :
  openai.CreateChatCompletion (client i) 0
    (preparedParams i (convertMessages i messages) (convertTools i tools))
  = inl completion ->
  requestCompletion i messages tools = go.Done (inl completion).
Proof. intros H. unfold requestCompletion. apply attemptLoop_first. exact H. Qed.

(** ** The consumption loop, chunk by chunk *)

(** What the loop receives before it ends: the chunks, and the error that
    ended it when that was not a clean end of stream. *)
Fixpoint received (s : openai.ChatCompletionStream)
  : list openai.ChatCompletionChunk * option go.error :=
  match s with
  | [] => ([], None)
  | inr err :: _ => if go.errors_Is_EOF err then ([], None) else ([], Some err)
  | inl chunk :: rest =>
    let '(chunks, err) := received rest in (chunk :: chunks, err)
  end.

(** The loop body run over a list of chunks. *)
Fixpoint runChunks (st : streamState) (chunks : list openai.ChatCompletionChunk)
  : streamState * list ProviderEvent :=
  match chunks with
  | [] => (st, [])
  | chunk :: rest =>
    let '(st1, sent1) := handleChunk st chunk in
    let '(st2, sent2) := runChunks st1 rest in
    (st2, sent1 ++ sent2)
  end.

Lemma consume_received (s : openai.ChatCompletionStream) (st : streamState) :
  consume s st
  = (runChunks st (received s).1).2
    ++ match (received s).2 with
       | None => finishStream (runChunks st (received s).1).1
       | Some err => [errorEvent err]
       end.
Proof.
  revert st. induction s as [|[chunk|err] rest IH]; intros st; cbn.
  - reflexivity.
  - destruct (handleChunk st chunk) as [st1 sent1] eqn:Hc.
    rewrite IH. destruct (received rest) as [chunks e]. cbn.
    rewrite Hc. destruct (runChunks st1 chunks) as [st2 sent2]. cbn.
    rewrite <- (assoc_L (++)). reflexivity.
  - destruct (go.errors_Is_EOF err); reflexivity.
Qed.

(** ** The tool-call deltas of a run *)

Lemma handleToolCallDeltas_acc (ds : list openai.ChatCompletionChunkChoiceDeltaToolCall)
    (tcs : list message.ToolCall) (acc : list ProviderEvent) :
  foldl (fun '(toolCalls, events) toolCallDelta =>
           let '(toolCalls, sent) :=
             handleToolCallDelta toolCalls toolCallDelta in
           (toolCalls, events ++ sent))
        (tcs, acc) ds
  = ((handleToolCallDeltas tcs ds).1, acc ++ (handleToolCallDeltas tcs ds).2).
Proof.
  unfold handleToolCallDeltas. revert tcs acc.
  induction ds as [|d ds IH]; intros tcs acc; cbn [foldl].
  - cbn. rewrite app_nil_r. reflexivity.
  - destruct (handleToolCallDelta tcs d) as [tcs1 sent1].
    rewrite (IH tcs1 (acc ++ sent1)), (IH tcs1 ([] ++ sent1)). cbn.
    rewrite <- (assoc_L (++)). reflexivity.
Qed.

Lemma handleToolCallDeltas_cons (d : openai.ChatCompletionChunkChoiceDeltaToolCall)
    (ds : list openai.ChatCompletionChunkChoiceDeltaToolCall)
    (tcs : list message.ToolCall) :
  handleToolCallDeltas tcs (d :: ds)
  = ((handleToolCallDeltas (handleToolCallDelta tcs d).1 ds).1,
     (handleToolCallDelta tcs d).2
     ++ (handleToolCallDeltas (handleToolCallDelta tcs d).1 ds).2).
Proof.
  unfold handleToolCallDeltas at 1. cbn [foldl].
  destruct (handleToolCallDelta tcs d) as [tcs1 sent1]. cbn.
  apply handleToolCallDeltas_acc.
Qed.

Lemma handleToolCallDeltas_app (ds1 ds2 : list openai.ChatCompletionChunkChoiceDeltaToolCall)
    (tcs : list message.ToolCall) :
  handleToolCallDeltas tcs (ds1 ++ ds2)
  = ((handleToolCallDeltas (handleToolCallDeltas tcs ds1).1 ds2).1,
     (handleToolCallDeltas tcs ds1).2
     ++ (handleToolCallDeltas (handleToolCallDeltas tcs ds1).1 ds2).2).
Proof.
  revert tcs. induction ds1 as [|d ds1 IH]; intros tcs.
  - replace (handleToolCallDeltas tcs []) with (tcs, @nil ProviderEvent)
      by reflexivity.
    cbn [fst snd app]. destruct (handleToolCallDeltas tcs ds2); reflexivity.
  - cbn [app]. rewrite !handleToolCallDeltas_cons, IH. cbn [fst snd].
    rewrite <- (assoc_L (++)). reflexivity.
Qed.

(** The deltas the loop handles for a chunk: those of its first choice. *)
Definition chunkDeltas (chunk : openai.ChatCompletionChunk)
  : list openai.ChatCompletionChunkChoiceDeltaToolCall :=
  match openai.c_Choices chunk with
  | [] => []
  | choice :: _ => openai.d_ToolCalls (openai.Delta choice)
  end.

Definition allDeltas (chunks : list openai.ChatCompletionChunk)
  : list openai.ChatCompletionChunkChoiceDeltaToolCall :=
  flat_map chunkDeltas chunks.

Lemma handleChunk_toolCalls (st : streamState) (chunk : openai.ChatCompletionChunk) :
  st_toolCalls (handleChunk st chunk).1
  = (handleToolCallDeltas (st_toolCalls st) (chunkDeltas chunk)).1.
Proof.
  unfold handleChunk, chunkDeltas.
  destruct (openai.c_Choices chunk) as [|choice ?]; [reflexivity|].
  destruct (openai.d_Content (openai.Delta choice)).
  all: case_bool_decide as Hlen.
  all: try (destruct (handleToolCallDeltas _ _); reflexivity).
  all: destruct (openai.d_ToolCalls (openai.Delta choice)); [reflexivity|].
  all: cbn in Hlen; lia.
Qed.

Lemma runChunks_toolCalls (chunks : list openai.ChatCompletionChunk)
    (st : streamState) :
  st_toolCalls (runChunks st chunks).1
  = (handleToolCallDeltas (st_toolCalls st) (allDeltas chunks)).1.
Proof.
  revert st. induction chunks as [|chunk rest IH]; intros st.
  - reflexivity.
  - cbn [runChunks]. unfold allDeltas. cbn [flat_map]. fold (allDeltas rest).
    rewrite handleToolCallDeltas_app. cbn [fst].
    rewrite <- handleChunk_toolCalls.
    destruct (handleChunk st chunk) as [st1 sent1]. cbn [fst].
    rewrite <- IH. destruct (runChunks st1 rest); reflexivity.
Qed.

(** ** The kinds of events a run sends *)

(** How many events of one type a sequence holds. *)
Definition countEvents (t : EventType) (evs : list ProviderEvent) : nat :=
  length (filter (fun ev => Typ ev = t) evs).

(** The events of the consumption loop body. *)
Definition bodyEvent (ev : ProviderEvent) : Prop :=
  Typ ev = EventContentDelta \/ Typ ev = EventToolUseStart
  \/ Typ ev = EventToolUseDelta.

Lemma countEvents_app (t : EventType) (evs1 evs2 : list ProviderEvent) :
  countEvents t (evs1 ++ evs2) = (countEvents t evs1 + countEvents t evs2)%nat.
Proof. unfold countEvents. rewrite filter_app, length_app. reflexivity. Qed.

Lemma countEvents_none (t : EventType) (evs : list ProviderEvent) :
  Forall (fun ev => Typ ev <> t) evs -> countEvents t evs = 0%nat.
Proof.
  unfold countEvents. induction 1 as [|ev evs Hev _ IH]; [reflexivity|].
  rewrite filter_cons_False by tauto. exact IH.
Qed.

Lemma bodyEvent_other (t : EventType) (evs : list ProviderEvent) :
  Forall bodyEvent evs ->
  t <> EventContentDelta -> t <> EventToolUseStart -> t <> EventToolUseDelta ->
  Forall (fun ev => Typ ev <> t) evs.
Proof.
  intros Hall H1 H2 H3. eapply Forall_impl; [exact Hall|].
  intros ev [H|[H|H]]; rewrite H; congruence.
Qed.

(** Closes a goal that lists body events one by one. *)
Ltac body_events :=
  repeat match goal with
         | |- Forall _ [] => constructor
         | |- Forall _ (_ :: _) =>
           constructor; [unfold bodyEvent; cbn; tauto|]
         | |- Forall _ (_ ++ _) => apply Forall_app; split
         | |- Forall _ _ => assumption
         end.

Lemma startToolCall_events (tcs : list message.ToolCall)
    (d : openai.ChatCompletionChunkChoiceDeltaToolCall) :
  Forall bodyEvent (startToolCall tcs d).2.
Proof.
  unfold startToolCall. case_bool_decide; [|constructor].
  destruct (openai.d_ID d); cbn; body_events.
Qed.

Lemma updateToolCall_events (tcs : list message.ToolCall)
    (d : openai.ChatCompletionChunkChoiceDeltaToolCall) :
  Forall bodyEvent (updateToolCall tcs d).2.
Proof.
  unfold updateToolCall. case_bool_decide; [|constructor].
  destruct (openai.d_Function_Arguments d); cbn; body_events.
Qed.

Lemma handleToolCallDelta_events (tcs : list message.ToolCall)
    (d : openai.ChatCompletionChunkChoiceDeltaToolCall) :
  Forall bodyEvent (handleToolCallDelta tcs d).2.
Proof.
  unfold handleToolCallDelta.
  pose proof (startToolCall_events tcs d) as Hs.
  destruct (startToolCall tcs d) as [tcs1 started].
  pose proof (updateToolCall_events tcs1 d) as Hu.
  destruct (updateToolCall tcs1 d) as [tcs2 updated].
  apply Forall_app. split; assumption.
Qed.

Lemma handleToolCallDeltas_events (ds : list openai.ChatCompletionChunkChoiceDeltaToolCall)
    (tcs : list message.ToolCall) :
  Forall bodyEvent (handleToolCallDeltas tcs ds).2.
Proof.
  revert tcs. induction ds as [|d ds IH]; intros tcs.
  - constructor.
  - rewrite handleToolCallDeltas_cons. cbn [snd]. apply Forall_app.
    split; [apply handleToolCallDelta_events|apply IH].
Qed.

Lemma handleChunk_events (st : streamState) (chunk : openai.ChatCompletionChunk) :
  Forall bodyEvent (handleChunk st chunk).2.
Proof.
  unfold handleChunk.
  destruct (openai.c_Choices chunk) as [|choice ?]; [constructor|].
  pose proof (handleToolCallDeltas_events
                (openai.d_ToolCalls (openai.Delta choice)) (st_toolCalls st))
    as Ht.
  destruct (openai.d_Content (openai.Delta choice));
    case_bool_decide;
    destruct (handleToolCallDeltas _ _) as [tcs sent]; cbn in *;
    body_events.
Qed.

Lemma runChunks_events (chunks : list openai.ChatCompletionChunk)
    (st : streamState) :
  Forall bodyEvent (runChunks st chunks).2.
Proof.
  revert st. induction chunks as [|chunk rest IH]; intros st; cbn [runChunks].
  - constructor.
  - pose proof (handleChunk_events st chunk) as Hc.
    destruct (handleChunk st chunk) as [st1 sent1].
    specialize (IH st1). destruct (runChunks st1 rest) as [st2 sent2].
    apply Forall_app. split; assumption.
Qed.

Lemma toolUseStop_events (t : EventType) (calls : list message.ToolCall) :
  t <> EventToolUseStop ->
  Forall (fun ev => Typ ev <> t) (map (toolEvent EventToolUseStop) calls).
Proof.
  intros Ht. apply Forall_forall. intros ev Hin.
  apply list_elem_of_fmap in Hin as (c & -> & _). cbn. congruence.
Qed.

(** The events that follow a clean end of stream: no Error, no
    ContentStart, one Complete, which is the last. *)
Lemma finishStream_counts (st : streamState) :
  countEvents EventComplete (finishStream st) = 1%nat
  /\ countEvents EventError (finishStream st) = 0%nat
  /\ countEvents EventContentStart (finishStream st) = 0%nat.
Proof.
  unfold finishStream. rewrite !countEvents_app.
  rewrite !(countEvents_none _ (map _ _)) by (apply toolUseStop_events; congruence).
  repeat split.
Qed.

(** The response the Complete event of a clean end carries. *)
Definition finalResponse (st : streamState) : ProviderResponse :=
  {| Content := st_content st; ToolCalls := st_toolCalls st;
     Usage := st_usage st; FinishReason := st_finishReason st |}.

Lemma finishStream_last (st : streamState) :
  finishStream st
  = (map (toolEvent EventToolUseStop) (st_toolCalls st)
     ++ [event EventContentStop])
    ++ [completeEvent (finalResponse st)].
Proof. unfold finishStream. rewrite <- (assoc_L (++)). reflexivity. Qed.

(** What the consumption loop sends: body events, then either the events
    of a clean end or one Error. *)
Lemma consume_counts (s : openai.ChatCompletionStream) (st : streamState) :
  (countEvents EventComplete (consume s st)
   + countEvents EventError (consume s st) = 1)%nat
  /\ countEvents EventContentStart (consume s st) = 0%nat
  /\ exists front final,
       consume s st = front ++ [final]
       /\ (Typ final = EventComplete \/ Typ final = EventError).
Proof.
  rewrite consume_received.
  pose proof (runChunks_events (received s).1 st) as Hbody.
  destruct (runChunks st (received s).1) as [st' body]. cbn [fst snd] in *.
  rewrite !countEvents_app.
  rewrite !(countEvents_none _ body)
    by (apply bodyEvent_other; [exact Hbody|congruence..]).
  destruct (received s).2 as [err|].
  - repeat split. exists body, (errorEvent err). cbn. tauto.
  - destruct (finishStream_counts st') as (-> & -> & ->).
    repeat split. rewrite finishStream_last.
    exists (body ++ map (toolEvent EventToolUseStop) (st_toolCalls st')
                 ++ [event EventContentStop]),
      (completeEvent (finalResponse st')).
    split; [|left; reflexivity].
    rewrite <- !(assoc_L (++)). reflexivity.
Qed.

(** C3: every run of stream ends, and its event sequence holds exactly one
    Complete or Error event, which is its last event.  When opening the
    backend stream fails, the sequence is that one Error event and holds no
    ContentStart; when it succeeds, the sequence starts with the one
    ContentStart. *)
Theorem C3_stream_closes_once (i : infineonClient)
    (messages : list message.Message) (tools : list tools.BaseTool) :
  exists evs,
    infineon_stream i messages tools = go.Done evs
    /\ (countEvents EventComplete evs + countEvents EventError evs = 1)%nat
    /\ (exists front final,
          evs = front ++ [final]
          /\ (Typ final = EventComplete \/ Typ final = EventError))
    /\ (forall err,
          openStream i messages tools = go.Done (inr err) ->
          evs = [errorEvent err]
          /\ countEvents EventContentStart evs = 0%nat)
    /\ (forall s,
          openStream i messages tools = go.Done (inl s) ->
          head evs = Some (event EventContentStart)
          /\ countEvents EventContentStart evs = 1%nat).
Proof.
  unfold infineon_stream.
  destruct (attemptLoop_done
              (fun attempts =>
                 openai.CreateChatCompletionStream (client i) attempts
                   (setStream (preparedParams i (convertMessages i messages)
                                              (convertTools i tools))))
              (Z.to_nat (maxRetries - 1)) 0 ltac:(lia)) as [r Hr].
  unfold openStream. rewrite Hr. cbn [mbind outcome_bind go.bind].
  destruct r as [s|err].
  - eexists. split; [reflexivity|].
    destruct (consume_counts s initialState) as (Hone & Hstart & front & final & Hc & Hfinal).
    change (event EventContentStart :: consume s initialState)
      with ([event EventContentStart] ++ consume s initialState).
    rewrite !countEvents_app. split; [exact Hone|]. split.
    + exists ([event EventContentStart] ++ front), final.
      rewrite Hc, <- (assoc_L (++)). tauto.
    + split; [intros err' [=]|]. intros s' _. rewrite Hstart. tauto.
  - exists [errorEvent err]. split; [reflexivity|]. split; [reflexivity|].
    split; [exists [], (errorEvent err); cbn; tauto|].
    split; [intros err' [= ->]; tauto|intros s' [=]].
Qed.

(** ** What a run accumulates *)

Lemma string_app_nil_r (a : string) : a +:+ "" = a.
Proof.
  induction a as [|ch a IH]; [reflexivity|].
  change (String ch (a +:+ "") = String ch a). f_equal. exact IH.
Qed.

Lemma string_app_assoc (a b c : string) : (a +:+ b) +:+ c = a +:+ (b +:+ c).
Proof.
  induction a as [|ch a IH]; [reflexivity|].
  change (String ch ((a +:+ b) +:+ c) = String ch (a +:+ (b +:+ c))).
  f_equal. exact IH.
Qed.

Lemma omap_cons_match {A B : Type} (f : A -> option B) (x : A) (l : list A) :
  omap f (x :: l)
  = match f x with
    | Some y => y :: omap f l
    | None => omap f l
    end.
Proof. reflexivity. Qed.

(** The concatenation of text fragments, in order. *)
Definition concatFragments (fragments : list string) : string :=
  foldr String.append "" fragments.

Lemma concatFragments_snoc (fragments : list string) (a : string) :
  concatFragments (fragments ++ [a]) = concatFragments fragments +:+ a.
Proof.
  induction fragments as [|f fragments IH]; cbn.
  - apply string_app_nil_r.
  - unfold concatFragments in IH. rewrite IH, string_app_assoc. reflexivity.
Qed.

(** The text delta, and the non-empty finish reason, of a chunk's first
    choice. *)
Definition chunkContent (chunk : openai.ChatCompletionChunk) : option string :=
  match openai.c_Choices chunk with
  | [] => None
  | choice :: _ => openai.d_Content (openai.Delta choice)
  end.

Definition chunkReason (chunk : openai.ChatCompletionChunk) : option string :=
  match openai.c_Choices chunk with
  | [] => None
  | choice :: _ =>
    if bool_decide (openai.c_FinishReason choice <> "")
    then Some (openai.c_FinishReason choice) else None
  end.

Lemma handleChunk_state (st : streamState) (chunk : openai.ChatCompletionChunk) :
  st_content (handleChunk st chunk).1
  = st_content st +:+ default "" (chunkContent chunk)
  /\ st_usage (handleChunk st chunk).1 = st_usage st
  /\ st_finishReason (handleChunk st chunk).1
     = default (st_finishReason st) (finishReason <$> chunkReason chunk).
Proof.
  unfold handleChunk, chunkContent, chunkReason.
  destruct (openai.c_Choices chunk) as [|choice ?]; cbn.
  - rewrite string_app_nil_r. tauto.
  - destruct (openai.d_Content (openai.Delta choice));
      destruct (bool_decide (0 < _)%nat);
      try destruct (handleToolCallDeltas _ _);
      destruct (bool_decide (openai.c_FinishReason choice <> ""));
      cbn; rewrite ?string_app_nil_r; tauto.
Qed.

Lemma runChunks_state (chunks : list openai.ChatCompletionChunk)
    (st : streamState) :
  st_content (runChunks st chunks).1
  = st_content st +:+ concatFragments (omap chunkContent chunks)
  /\ st_usage (runChunks st chunks).1 = st_usage st
  /\ st_finishReason (runChunks st chunks).1
     = default (st_finishReason st)
               (finishReason <$> last (omap chunkReason chunks)).
Proof.
  revert st. induction chunks as [|chunk rest IH]; intros st; cbn [runChunks].
  - cbn. rewrite string_app_nil_r. tauto.
  - destruct (handleChunk_state st chunk) as (Hc & Hu & Hf).
    destruct (handleChunk st chunk) as [st1 sent1]. cbn [fst] in *.
    destruct (IH st1) as (Hc' & Hu' & Hf').
    destruct (runChunks st1 rest) as [st2 sent2]. cbn [fst] in *.
    rewrite Hc', Hu', Hf', Hc, Hu, Hf, !omap_cons_match.
    split; [|split; [reflexivity|]].
    + rewrite string_app_assoc.
      destruct (chunkContent chunk); reflexivity.
    + destruct (chunkReason chunk) as [reason|]; [|reflexivity].
      rewrite last_cons. cbn.
      destruct (last (omap chunkReason rest)); reflexivity.
Qed.

(** The tool calls carried by the events of one type, in order. *)
Definition callsOf (t : EventType) (evs : list ProviderEvent)
  : list message.ToolCall :=
  omap (fun ev => if decide (Typ ev = t) then ToolCall ev else None) evs.

Lemma callsOf_app (t : EventType) (evs1 evs2 : list ProviderEvent) :
  callsOf t (evs1 ++ evs2) = callsOf t evs1 ++ callsOf t evs2.
Proof. apply omap_app. Qed.

Lemma callsOf_toolEvents (t : EventType) (calls : list message.ToolCall) :
  callsOf t (map (toolEvent t) calls) = calls.
Proof.
  induction calls as [|c calls IH]; [reflexivity|].
  cbn. rewrite decide_True by reflexivity. cbn.
  unfold callsOf in IH. rewrite IH. reflexivity.
Qed.

Lemma alter_ids (f : message.ToolCall -> message.ToolCall) (idx : nat)
    (tcs : list message.ToolCall) :
  (forall c, message.ID (f c) = message.ID c) ->
  map message.ID (alter f idx tcs) = map message.ID tcs.
Proof.
  intros Hf. revert idx.
  induction tcs as [|c tcs IH]; intros [|idx]; cbn; try reflexivity.
  - rewrite Hf. reflexivity.
  - f_equal. apply IH.
Qed.

(** Every tool call of the slice was announced by a ToolUseStart event, in
    the order of the slice, and identifiers are never rewritten. *)
Lemma handleToolCallDelta_ids (tcs : list message.ToolCall)
    (d : openai.ChatCompletionChunkChoiceDeltaToolCall) :
  map message.ID (handleToolCallDelta tcs d).1
  = map message.ID tcs
    ++ map message.ID (callsOf EventToolUseStart (handleToolCallDelta tcs d).2).
Proof.
  unfold handleToolCallDelta.
  assert (map message.ID (startToolCall tcs d).1
          = map message.ID tcs
            ++ map message.ID (callsOf EventToolUseStart (startToolCall tcs d).2))
    as Hs.
  { unfold startToolCall. case_bool_decide; [|cbn; rewrite app_nil_r; reflexivity].
    destruct (openai.d_ID d); cbn; [|rewrite app_nil_r; reflexivity].
    rewrite map_app. reflexivity. }
  destruct (startToolCall tcs d) as [tcs1 started]. cbn [fst snd] in Hs.
  assert (map message.ID (updateToolCall tcs1 d).1 = map message.ID tcs1
          /\ callsOf EventToolUseStart (updateToolCall tcs1 d).2 = []) as [Hu Hn].
  { unfold updateToolCall. case_bool_decide; [|split; reflexivity].
    destruct (openai.d_Function_Name d), (openai.d_Function_Arguments d);
      cbn; rewrite ?alter_ids by reflexivity; split; reflexivity. }
  destruct (updateToolCall tcs1 d) as [tcs2 updated]. cbn [fst snd] in *.
  rewrite callsOf_app, Hn, app_nil_r, Hu. exact Hs.
Qed.

Lemma handleToolCallDeltas_ids (ds : list openai.ChatCompletionChunkChoiceDeltaToolCall)
    (tcs : list message.ToolCall) :
  map message.ID (handleToolCallDeltas tcs ds).1
  = map message.ID tcs
    ++ map message.ID (callsOf EventToolUseStart (handleToolCallDeltas tcs ds).2).
Proof.
  revert tcs. induction ds as [|d ds IH]; intros tcs.
  - cbn. rewrite app_nil_r. reflexivity.
  - rewrite handleToolCallDeltas_cons. cbn [fst snd].
    rewrite IH, handleToolCallDelta_ids, callsOf_app, map_app.
    rewrite <- (assoc_L (++)). reflexivity.
Qed.

Lemma handleChunk_ids (st : streamState) (chunk : openai.ChatCompletionChunk) :
  map message.ID (st_toolCalls (handleChunk st chunk).1)
  = map message.ID (st_toolCalls st)
    ++ map message.ID (callsOf EventToolUseStart (handleChunk st chunk).2).
Proof.
  unfold handleChunk.
  destruct (openai.c_Choices chunk) as [|choice ?];
    [cbn; rewrite app_nil_r; reflexivity|].
  pose proof (handleToolCallDeltas_ids
                (openai.d_ToolCalls (openai.Delta choice)) (st_toolCalls st))
    as Ht.
  destruct (openai.d_Content (openai.Delta choice));
    case_bool_decide;
    destruct (handleToolCallDeltas _ _) as [tcs sent]; cbn in *;
    rewrite ?app_nil_r; try reflexivity; exact Ht.
Qed.

Lemma runChunks_ids (chunks : list openai.ChatCompletionChunk)
    (st : streamState) :
  map message.ID (st_toolCalls (runChunks st chunks).1)
  = map message.ID (st_toolCalls st)
    ++ map message.ID (callsOf EventToolUseStart (runChunks st chunks).2).
Proof.
  revert st. induction chunks as [|chunk rest IH]; intros st; cbn [runChunks].
  - cbn. rewrite app_nil_r. reflexivity.
  - pose proof (handleChunk_ids st chunk) as Hc.
    destruct (handleChunk st chunk) as [st1 sent1].
    specialize (IH st1). destruct (runChunks st1 rest) as [st2 sent2].
    cbn [fst snd] in *.
    rewrite IH, Hc, callsOf_app, map_app, <- (assoc_L (++)). reflexivity.
Qed.

(** ** Runs that reach a clean end of stream *)

Lemma stream_opened (i : infineonClient) (messages : list message.Message)
    (tools : list tools.BaseTool) (s : openai.ChatCompletionStream) :
  openStream i messages tools = go.Done (inl s) ->
  infineon_stream i messages tools
  = go.Done (event EventContentStart :: consume s initialState).
Proof. intros H. unfold infineon_stream. rewrite H. reflexivity. Qed.

Lemma stream_clean (i : infineonClient) (messages : list message.Message)
    (tools : list tools.BaseTool) (s : openai.ChatCompletionStream) :
  openStream i messages tools = go.Done (inl s) ->
  (received s).2 = None ->
  infineon_stream i messages tools
  = go.Done (event EventContentStart
             :: (runChunks initialState (received s).1).2
             ++ map (toolEvent EventToolUseStop)
                    (st_toolCalls (runChunks initialState (received s).1).1)
             ++ [event EventContentStop;
                 completeEvent
                   (finalResponse (runChunks initialState (received s).1).1)]).
Proof.
  intros Hopen Hclean. rewrite (stream_opened _ _ _ _ Hopen).
  rewrite consume_received, Hclean. reflexivity.
Qed.

(** C8: on a clean end of stream the events are ContentStart, the body
    events, one ToolUseStop per tool call of the slice in slice order, then
    ContentStop, then Complete.  The started calls (ToolUseStart events, in
    order) are the stopped calls (same identifiers, same order), and
    Complete carries the concatenated text deltas, the same tool calls and
    the last non-empty finish reason, mapped. *)
Theorem C8_clean_end_of_stream (i : infineonClient)
    (messages : list message.Message) (tools : list tools.BaseTool)
    (s : openai.ChatCompletionStream) :
  openStream i messages tools = go.Done (inl s) ->
  (received s).2 = None ->
  exists body calls response,
    infineon_stream i messages tools
    = go.Done (event EventContentStart
               :: body
               ++ map (toolEvent EventToolUseStop) calls
               ++ [event EventContentStop; completeEvent response])
    /\ Forall bodyEvent body
    /\ map message.ID (callsOf EventToolUseStart body) = map message.ID calls
    /\ Content response = concatFragments (omap chunkContent (received s).1)
    /\ ToolCalls response = calls
    /\ FinishReason response
       = default message.FinishReasonZero
                 (finishReason <$> last (omap chunkReason (received s).1)).
Proof.
  intros Hopen Hclean.
  exists (runChunks initialState (received s).1).2,
    (st_toolCalls (runChunks initialState (received s).1).1),
    (finalResponse (runChunks initialState (received s).1).1).
  split; [apply stream_clean; assumption|].
  split; [apply runChunks_events|].
  destruct (runChunks_state (received s).1 initialState) as (Hc & _ & Hf).
  pose proof (runChunks_ids (received s).1 initialState) as Hids.
  cbn in Hids. split; [symmetry; exact Hids|].
  split; [exact Hc|]. split; [reflexivity|exact Hf].
Qed.

(** C9: on a clean end of stream the last event is the one Complete event
    and the usage it carries has its four fields at zero, whatever the
    chunks were; a successful send reports the prompt and completion token
    counts of the backend. *)
Theorem C9_usage_accounting (i : infineonClient)
    (messages : list message.Message) (tools : list tools.BaseTool) :
  (forall s,
     openStream i messages tools = go.Done (inl s) ->
     (received s).2 = None ->
     exists front response,
       infineon_stream i messages tools
       = go.Done (front ++ [completeEvent response])
       /\ countEvents EventComplete front = 0%nat
       /\ InputTokens (Usage response) = 0
       /\ OutputTokens (Usage response) = 0
       /\ CacheCreationTokens (Usage response) = 0
       /\ CacheReadTokens (Usage response) = 0)
  /\ (forall completion choice rest,
        requestCompletion i messages tools = go.Done (inl completion) ->
        openai.Choices completion = choice :: rest ->
        exists response,
          infineon_send i messages tools = go.Done (Some response, None)
          /\ InputTokens (Usage response)
             = openai.PromptTokens (openai.Usage completion)
          /\ OutputTokens (Usage response)
             = openai.CompletionTokens (openai.Usage completion)).
Proof.
  split.
  - intros s Hopen Hclean.
    destruct (runChunks_state (received s).1 initialState) as (_ & Hu & _).
    exists (event EventContentStart
            :: (runChunks initialState (received s).1).2
            ++ map (toolEvent EventToolUseStop)
                   (st_toolCalls (runChunks initialState (received s).1).1)
            ++ [event EventContentStop]),
      (finalResponse (runChunks initialState (received s).1).1).
    split.
    + rewrite (stream_clean _ _ _ _ Hopen Hclean). f_equal. cbn [app].
      f_equal. rewrite <- !(assoc_L (++)). reflexivity.
    + split.
      * change (event EventContentStart :: ?l)
          with ([event EventContentStart] ++ l).
        rewrite !countEvents_app.
        rewrite (countEvents_none _ (runChunks _ _).2)
          by (apply bodyEvent_other; [apply runChunks_events|congruence..]).
        rewrite (countEvents_none _ (map _ _))
          by (apply toolUseStop_events; congruence).
        reflexivity.
      * unfold finalResponse. cbn [Usage]. rewrite Hu. repeat split.
  - intros completion choice rest Hreq Hchoices.
    unfold infineon_send. rewrite Hreq. cbn [mbind outcome_bind go.bind].
    rewrite Hchoices. eexists. split; [reflexivity|]. split; reflexivity.
Qed.

(** C7: when the backend call of send succeeds, a completion without
    choices makes send return an error and no response; otherwise the
    response text is the content of the first choice, empty when absent,
    and its finish reason is the image of the backend text under
    finishReason, which sends the four known texts to their constants and
    every other text, the empty one included, to FinishReasonUnknown. *)
Theorem C7_send_assembly (i : infineonClient)
    (messages : list message.Message) (tools : list tools.BaseTool)
    (completion : openai.ChatCompletion) :
  requestCompletion i messages tools = go.Done (inl completion) ->
  (openai.Choices completion = [] ->
     infineon_send i messages tools
     = go.Done (None, Some (go.errorString "no choices returned")))
  /\ (forall choice rest,
        openai.Choices completion = choice :: rest ->
        exists response,
          infineon_send i messages tools = go.Done (Some response, None)
          /\ Content response
             = default "" (openai.Content (openai.Message choice))
          /\ FinishReason response
             = finishReason (openai.FinishReason choice))
  /\ finishReason "stop" = message.FinishReasonStop
  /\ finishReason "length" = message.FinishReasonLength
  /\ finishReason "tool_calls" = message.FinishReasonToolCalls
  /\ finishReason "content_filter" = message.FinishReasonContentFilter
  /\ finishReason "" = message.FinishReasonUnknown
  /\ (forall reason,
        reason <> "stop" -> reason <> "length" -> reason <> "tool_calls" ->
        reason <> "content_filter" ->
        finishReason reason = message.FinishReasonUnknown).
Proof.
  intros Hreq. unfold infineon_send. rewrite Hreq.
  cbn [mbind outcome_bind go.bind].
  split; [intros ->; reflexivity|].
  split.
  - intros choice rest ->. eexists. split; [reflexivity|].
    split; [|reflexivity]. cbn.
    destruct (openai.Content (openai.Message choice)); reflexivity.
  - repeat (split; [reflexivity|]).
    intros reason H1 H2 H3 H4. unfold finishReason.
    rewrite !bool_decide_eq_false_2 by assumption. reflexivity.
Qed.

(** ** Conversion of tool calls and tools: the slots of the made slice *)


Definition toolSlot (tool : tools.BaseTool) : openai.ChatCompletionToolParam :=
  match tools.JSONSchema tool with
  | inr _ => openai.zeroToolParam
  | inl schema =>
    {| openai.tp_Type := "function";
       openai.tp_Function_Name := tools.Name tool;
       openai.tp_Function_Description := Some (tools.Description tool);
       openai.tp_Function_Parameters := Some schema |}
  end.

Lemma insert_at_end_of_prefix {A : Type} (pre : list A) (x y : A) (l : list A) :
  <[length pre := y]> (pre ++ x :: l) = pre ++ y :: l.
Proof.
  rewrite <- (Nat.add_0_r (length pre)). rewrite insert_app_r. reflexivity.
Qed.


Lemma fillTools_slots (tools : list tools.BaseTool)
    (pre : list openai.ChatCompletionToolParam) :
  fillTools (length pre) tools
    (pre ++ replicate (length tools) openai.zeroToolParam)
  = pre ++ map toolSlot tools.
Proof.
  revert pre. induction tools as [|tool rest IH]; intros pre; [reflexivity|].
  cbn [fillTools length replicate map]. unfold toolSlot at 1.
  assert (forall v,
            fillTools (S (length pre)) rest
              (pre ++ v :: replicate (length rest) openai.zeroToolParam)
            = pre ++ v :: map toolSlot rest) as Hnext.
  { intros v. specialize (IH (pre ++ [v])).
    rewrite length_app, Nat.add_1_r, <- !(assoc_L (++)) in IH. exact IH. }
  destruct (tools.JSONSchema tool) as [schema|err]; [|apply Hnext].
  rewrite insert_at_end_of_prefix. apply Hnext.
Qed.

(** The backend tool list has one entry per tool, in order: the converted
    tool, or the zero value where schema extraction failed. *)
Lemma convertTools_slots (i : infineonClient) (tools : list tools.BaseTool) :
  convertTools i tools = map toolSlot tools.
Proof.
  unfold convertTools. case_bool_decide as Hlen.
  - destruct tools; [reflexivity|discriminate].
  - apply (fillTools_slots tools []).
Qed.


(** ** Assembly of one tool call from its deltas *)

(** What the second if statement does to the call at the delta's index. *)
Definition applyDelta (d : openai.ChatCompletionChunkChoiceDeltaToolCall)
    (c : message.ToolCall) : message.ToolCall :=
  let c := match openai.d_Function_Name d with
           | Some name => setName name c
           | None => c
           end in
  match openai.d_Function_Arguments d with
  | Some arguments => addInput arguments c
  | None => c
  end.

Definition applyAt (k : nat) (c : message.ToolCall)
    (d : openai.ChatCompletionChunkChoiceDeltaToolCall) : message.ToolCall :=
  if bool_decide (openai.Index d = Z.of_nat k) then applyDelta d c else c.

(** The deltas that carry index [k], and the name and argument fragments
    of a list of deltas, in arrival order. *)
Definition forIndex (k : nat)
    (ds : list openai.ChatCompletionChunkChoiceDeltaToolCall)
  : list openai.ChatCompletionChunkChoiceDeltaToolCall :=
  filter (fun d => openai.Index d = Z.of_nat k) ds.

Definition nameFragments
    (ds : list openai.ChatCompletionChunkChoiceDeltaToolCall) : list string :=
  omap openai.d_Function_Name ds.

Definition argumentFragments
    (ds : list openai.ChatCompletionChunkChoiceDeltaToolCall) : list string :=
  omap openai.d_Function_Arguments ds.

Lemma startToolCall_lookup (tcs : list message.ToolCall)
    (d : openai.ChatCompletionChunkChoiceDeltaToolCall)
    (k : nat) (c : message.ToolCall) :
  tcs !! k = Some c -> (startToolCall tcs d).1 !! k = Some c.
Proof.
  intros Hk. unfold startToolCall. case_bool_decide; [|exact Hk].
  destruct (openai.d_ID d); [|exact Hk]. cbn. apply lookup_app_l_Some, Hk.
Qed.

Lemma updateToolCall_lookup (tcs : list message.ToolCall)
    (d : openai.ChatCompletionChunkChoiceDeltaToolCall)
    (k : nat) (c : message.ToolCall) :
  tcs !! k = Some c -> (updateToolCall tcs d).1 !! k = Some (applyAt k c d).
Proof.
  intros Hk. pose proof (lookup_lt_Some _ _ _ Hk) as Hlt.
  unfold updateToolCall, applyAt, applyDelta.
  case_bool_decide as Hvalid; case_bool_decide as Hidx; try lia.
  - rewrite Hidx, Nat2Z.id.
    destruct (openai.d_Function_Name d), (openai.d_Function_Arguments d);
      cbn [fst]; rewrite ?list_lookup_alter_eq, ?Hk; reflexivity.
  - assert (Z.to_nat (openai.Index d) <> k) as Hne by lia.
    destruct (openai.d_Function_Name d), (openai.d_Function_Arguments d);
      cbn [fst]; rewrite ?list_lookup_alter_ne by exact Hne; exact Hk.
  - exact Hk.
Qed.

Lemma handleToolCallDelta_lookup (tcs : list message.ToolCall)
    (d : openai.ChatCompletionChunkChoiceDeltaToolCall)
    (k : nat) (c : message.ToolCall) :
  tcs !! k = Some c ->
  (handleToolCallDelta tcs d).1 !! k = Some (applyAt k c d).
Proof.
  intros Hk. unfold handleToolCallDelta.
  pose proof (startToolCall_lookup tcs d k c Hk) as Hs.
  destruct (startToolCall tcs d) as [tcs1 started]. cbn [fst] in Hs.
  pose proof (updateToolCall_lookup tcs1 d k c Hs) as Hu.
  destruct (updateToolCall tcs1 d) as [tcs2 updated]. exact Hu.
Qed.

Lemma handleToolCallDeltas_lookup
    (ds : list openai.ChatCompletionChunkChoiceDeltaToolCall)
    (tcs : list message.ToolCall) (k : nat) (c : message.ToolCall) :
  tcs !! k = Some c ->
  (handleToolCallDeltas tcs ds).1 !! k = Some (foldl (applyAt k) c ds).
Proof.
  revert tcs c. induction ds as [|d ds IH]; intros tcs c Hk; [exact Hk|].
  rewrite handleToolCallDeltas_cons. cbn [fst foldl].
  apply IH, handleToolCallDelta_lookup, Hk.
Qed.

(** A call folded over deltas keeps its identifier, takes the last name
    fragment carried at its index, and appends the argument fragments
    carried at its index in order. *)
Lemma foldl_applyAt (k : nat)
    (ds : list openai.ChatCompletionChunkChoiceDeltaToolCall)
    (c : message.ToolCall) :
  foldl (applyAt k) c ds
  = {| message.ID := message.ID c;
       message.Name :=
         default (message.Name c) (last (nameFragments (forIndex k ds)));
       message.Input :=
         message.Input c
         +:+ concatFragments (argumentFragments (forIndex k ds)) |}.
Proof.
  revert c. induction ds as [|d ds IH]; intros c; cbn [foldl].
  - cbn. rewrite string_app_nil_r. destruct c; reflexivity.
  - rewrite IH. unfold forIndex, applyAt, nameFragments, argumentFragments.
    rewrite filter_cons. case_bool_decide as Hidx.
    + rewrite decide_True by exact Hidx. rewrite !omap_cons_match.
      unfold applyDelta.
      destruct (openai.d_Function_Name d) as [name|],
               (openai.d_Function_Arguments d) as [arguments|];
        cbn [setName addInput message.ID message.Name message.Input
             concatFragments foldr];
        rewrite ?last_cons, ?string_app_assoc;
        try (destruct (last _)); reflexivity.
    + rewrite decide_False by exact Hidx. reflexivity.
Qed.

(** A delta that carries an identifier and an index outside the slice
    starts a call at the end of the slice; the same delta updates the new
    call when its index is the position of the new call. *)
Lemma handleToolCallDelta_start (tcs : list message.ToolCall)
    (d : openai.ChatCompletionChunkChoiceDeltaToolCall) (id : string) :
  openai.Index d < 0 \/ Z.of_nat (length tcs) <= openai.Index d ->
  openai.d_ID d = Some id ->
  (handleToolCallDelta tcs d).1 !! length tcs
  = Some (applyAt (length tcs)
                  {| message.ID := id; message.Name := "";
                     message.Input := "" |} d).
Proof.
  intros Hidx Hid. unfold handleToolCallDelta, startToolCall.
  rewrite bool_decide_eq_true_2 by exact Hidx. rewrite Hid.
  pose proof (updateToolCall_lookup
                (tcs ++ [{| message.ID := id; message.Name := "";
                            message.Input := "" |}]) d (length tcs) _
                (list_lookup_middle tcs [] _ _ eq_refl)) as Hu.
  destruct (updateToolCall _ d) as [tcs2 updated]. exact Hu.
Qed.

(** The assembled call: started at position [k] by [d0] after the deltas
    [ds1], then updated by the later deltas [ds2]. *)
Lemma handleToolCallDeltas_assembly
    (ds1 ds2 : list openai.ChatCompletionChunkChoiceDeltaToolCall)
    (d0 : openai.ChatCompletionChunkChoiceDeltaToolCall) (id : string) :
  let k := length (handleToolCallDeltas [] ds1).1 in
  openai.Index d0 < 0 \/ Z.of_nat k <= openai.Index d0 ->
  openai.d_ID d0 = Some id ->
  (handleToolCallDeltas [] (ds1 ++ d0 :: ds2)).1 !! k
  = Some {| message.ID := id;
            message.Name :=
              default "" (last (nameFragments (forIndex k (d0 :: ds2))));
            message.Input :=
              concatFragments (argumentFragments (forIndex k (d0 :: ds2))) |}.
Proof.
  intros k Hidx Hid.
  rewrite handleToolCallDeltas_app. cbn [fst].
  rewrite handleToolCallDeltas_cons. cbn [fst].
  pose proof (handleToolCallDelta_start _ d0 id Hidx Hid) as Hstart.
  fold k in Hstart.
  rewrite (handleToolCallDeltas_lookup ds2 _ k _ Hstart). f_equal.
  exact (foldl_applyAt k (d0 :: ds2)
           {| message.ID := id; message.Name := ""; message.Input := "" |}).
Qed.

(** ** What the ToolUseDelta events carry *)

Lemma handleToolCallDelta_fragments (tcs : list message.ToolCall)
    (d : openai.ChatCompletionChunkChoiceDeltaToolCall) :
  map message.Input (callsOf EventToolUseDelta (handleToolCallDelta tcs d).2)
  `sublist_of` argumentFragments [d].
Proof.
  unfold handleToolCallDelta.
  assert (callsOf EventToolUseDelta (startToolCall tcs d).2 = []) as Hs.
  { unfold startToolCall. case_bool_decide; [|reflexivity].
    destruct (openai.d_ID d); reflexivity. }
  destruct (startToolCall tcs d) as [tcs1 started]. cbn [snd] in Hs.
  assert (map message.Input (callsOf EventToolUseDelta (updateToolCall tcs1 d).2)
          `sublist_of` argumentFragments [d]) as Hu.
  { unfold updateToolCall, argumentFragments. rewrite omap_cons_match.
    case_bool_decide; [|apply sublist_nil_l].
    destruct (openai.d_Function_Arguments d) as [arguments|];
      [|apply sublist_nil_l].
    cbn. destruct (_ !! _); cbn; [reflexivity|apply sublist_nil_l]. }
  destruct (updateToolCall tcs1 d) as [tcs2 updated]. cbn [snd] in *.
  rewrite callsOf_app, Hs. exact Hu.
Qed.

Lemma handleToolCallDeltas_fragments
    (ds : list openai.ChatCompletionChunkChoiceDeltaToolCall)
    (tcs : list message.ToolCall) :
  map message.Input (callsOf EventToolUseDelta (handleToolCallDeltas tcs ds).2)
  `sublist_of` argumentFragments ds.
Proof.
  revert tcs. induction ds as [|d ds IH]; intros tcs; [reflexivity|].
  rewrite handleToolCallDeltas_cons. cbn [snd].
  rewrite callsOf_app, map_app.
  change (argumentFragments (d :: ds))
    with (omap openai.d_Function_Arguments ([d] ++ ds)).
  rewrite omap_app. apply sublist_app; [apply handleToolCallDelta_fragments|apply IH].
Qed.

Lemma handleChunk_fragments (st : streamState) (chunk : openai.ChatCompletionChunk) :
  map message.Input (callsOf EventToolUseDelta (handleChunk st chunk).2)
  `sublist_of` argumentFragments (chunkDeltas chunk).
Proof.
  unfold handleChunk, chunkDeltas.
  destruct (openai.c_Choices chunk) as [|choice ?]; [reflexivity|].
  pose proof (handleToolCallDeltas_fragments
                (openai.d_ToolCalls (openai.Delta choice)) (st_toolCalls st))
    as Ht.
  destruct (openai.d_Content (openai.Delta choice));
    case_bool_decide;
    destruct (handleToolCallDeltas _ _) as [tcs sent]; cbn in *;
    first [exact Ht | apply sublist_nil_l].
Qed.

Lemma runChunks_fragments (chunks : list openai.ChatCompletionChunk)
    (st : streamState) :
  map message.Input (callsOf EventToolUseDelta (runChunks st chunks).2)
  `sublist_of` argumentFragments (allDeltas chunks).
Proof.
  revert st. induction chunks as [|chunk rest IH]; intros st; [reflexivity|].
  cbn [runChunks].
  pose proof (handleChunk_fragments st chunk) as Hc.
  destruct (handleChunk st chunk) as [st1 sent1].
  specialize (IH st1). destruct (runChunks st1 rest) as [st2 sent2].
  cbn [snd] in *. rewrite callsOf_app, map_app.
  unfold allDeltas, argumentFragments. cbn [flat_map]. rewrite omap_app.
  apply sublist_app; assumption.
Qed.

(** C1, as amended: on a clean end of stream, take any tool call of the
    run: it was started, as the call at position [k] of the slice, by a
    delta [d0] that carries an identifier and an index outside the slice of
    the [k] calls started before; [ds2] are the deltas that arrive after
    [d0].  The deltas resolved to this call are those among [d0 :: ds2] with
    index [k].  The call carried by its ToolUseStop event and by Complete
    has that identifier, an input equal to the concatenation, in arrival
    order, of the argument fragments of these deltas, and a name equal to
    the last name fragment among them (each fragment replaces the name;
    empty when there is none).  The inputs carried by the ToolUseDelta
    events are, in order, argument fragments as they arrived, one delta
    each. *)
Theorem C1_tool_call_assembly (i : infineonClient)
    (messages : list message.Message) (tools : list tools.BaseTool)
    (s : openai.ChatCompletionStream)
    (ds1 ds2 : list openai.ChatCompletionChunkChoiceDeltaToolCall)
    (d0 : openai.ChatCompletionChunkChoiceDeltaToolCall) (id : string) :
  let k := length (handleToolCallDeltas [] ds1).1 in
  openStream i messages tools = go.Done (inl s) ->
  (received s).2 = None ->
  allDeltas (received s).1 = ds1 ++ d0 :: ds2 ->
  openai.Index d0 < 0 \/ Z.of_nat k <= openai.Index d0 ->
  openai.d_ID d0 = Some id ->
  exists body calls response,
    infineon_stream i messages tools
    = go.Done (event EventContentStart
               :: body
               ++ map (toolEvent EventToolUseStop) calls
               ++ [event EventContentStop; completeEvent response])
    /\ ToolCalls response = calls
    /\ calls !! k
       = Some {| message.ID := id;
                 message.Name :=
                   default "" (last (nameFragments (forIndex k (d0 :: ds2))));
                 message.Input :=
                   concatFragments
                     (argumentFragments (forIndex k (d0 :: ds2))) |}
    /\ map message.Input (callsOf EventToolUseDelta body)
       `sublist_of` argumentFragments (allDeltas (received s).1).
Proof.
  intros k Hopen Hclean Hdeltas Hidx Hid.
  exists (runChunks initialState (received s).1).2,
    (st_toolCalls (runChunks initialState (received s).1).1),
    (finalResponse (runChunks initialState (received s).1).1).
  split; [apply stream_clean; assumption|].
  split; [reflexivity|].
  split; [|apply runChunks_fragments].
  rewrite runChunks_toolCalls, Hdeltas.
  apply handleToolCallDeltas_assembly; assumption.
Qed.

(** * Further properties of the retry policy and the retry loop *)

(** The backend call of each loop, as a function of the attempt index. *)
Definition sendCall (i : infineonClient) (messages : list message.Message)
    (tools : list tools.BaseTool) (attempts : Z)
  : openai.ChatCompletion + go.error :=
  openai.CreateChatCompletion (client i) attempts
    (preparedParams i (convertMessages i messages) (convertTools i tools)).

Definition streamCall (i : infineonClient) (messages : list message.Message)
    (tools : list tools.BaseTool) (attempts : Z)
  : openai.ChatCompletionStream + go.error :=
  openai.CreateChatCompletionStream (client i) attempts
    (setStream (preparedParams i (convertMessages i messages)
                               (convertTools i tools))).

(** An error the policy retries while attempts remain: a recognized API
    error with status 429 or a 5xx status. *)
Definition transient (err : go.error) : Prop :=
  exists apiErr,
    go.errors_As_APIError err = Some apiErr
    /\ (go.StatusCode apiErr = 429
        \/ 500 <= go.StatusCode apiErr < 600).

(** An error the policy never retries: no API error in its chain, or a
    status that is neither 429 nor 5xx. *)
Definition permanent (err : go.error) : Prop :=
  match go.errors_As_APIError err with
  | None => True
  | Some apiErr =>
    go.StatusCode apiErr <> 429
    /\ ~ (500 <= go.StatusCode apiErr < 600)
  end.

(** X1: an error that is not a recognized API error, or whose status is
    neither 429 nor in [500,600), is never retried and never turned into a
    fatal error, at any attempt index, negative ones included. *)
Theorem shouldRetry_permanent (attempts : Z) (err : go.error) :
  permanent err -> shouldRetry attempts err = go.Done (false, 0, None).
Proof.
  unfold permanent, shouldRetry.
  destruct (go.errors_As_APIError err) as [apiErr|]; [|reflexivity].
  intros [H429 H5xx].
  rewrite (bool_decide_eq_false_2 _ H429), (bool_decide_eq_false_2 _ H5xx).
  reflexivity.
Qed.

Lemma shouldRetry_transient (attempts : Z) (err : go.error) :
  0 <= attempts < maxRetries - 1 -> transient err ->
  exists delay, shouldRetry attempts err = go.Done (true, delay, None).
Proof.
  intros Ha (apiErr & Has & Hstatus). unfold shouldRetry. rewrite Has.
  destruct (backoff_nonneg attempts ltac:(lia)) as [b Hb].
  case_bool_decide as H429.
  - destruct (if bool_decide _ then _ else _); [eauto|].
    rewrite Hb. cbn. eauto.
  - rewrite bool_decide_eq_true_2 by lia.
    rewrite bool_decide_eq_false_2 by lia. rewrite Hb. cbn. eauto.
Qed.

(** The loop passes over a run of transient failures. *)
Lemma attemptLoop_skip {A : Type} (call : Z -> A + go.error) (k : nat) :
  forall (more : nat) (attempts : Z),
    0 <= attempts ->
    attempts + Z.of_nat k <= maxRetries - 1 ->
    (k <= more)%nat ->
    (forall j, attempts <= j < attempts + Z.of_nat k ->
               exists err, call j = inr err /\ transient err) ->
    attemptLoop call more attempts
    = attemptLoop call (more - k) (attempts + Z.of_nat k).
Proof.
  induction k as [|k IH]; intros more attempts Ha Hmax Hk Hfail.
  - rewrite Nat.sub_0_r, Z.add_0_r. reflexivity.
  - destruct more as [|more]; [lia|]. cbn [attemptLoop].
    destruct (Hfail attempts ltac:(lia)) as (err & -> & Herr).
    destruct (shouldRetry_transient attempts err ltac:(lia) Herr)
      as [delay ->].
    cbn. rewrite (IH more (attempts + 1)); try lia.
    + f_equal. lia.
    + intros j Hj. apply Hfail. lia.
Qed.

(** The loop reads the backend only at the attempt indices it can reach. *)
Lemma attemptLoop_ext {A : Type} (call call' : Z -> A + go.error)
    (more : nat) :
  forall attempts,
    (forall j, attempts <= j <= attempts + Z.of_nat more -> call j = call' j) ->
    attemptLoop call more attempts = attemptLoop call' more attempts.
Proof.
  induction more as [|more IH]; intros attempts Hsame; cbn [attemptLoop];
    rewrite <- (Hsame attempts) by lia; [reflexivity|].
  destruct (call attempts) as [v|err]; [reflexivity|].
  destruct (shouldRetry attempts err) as [[[retry delay] fatal]|msg];
    [|reflexivity].
  cbn. destruct fatal, retry; try reflexivity.
  apply IH. intros j Hj. apply Hsame. lia.
Qed.

(** The same options over another backend. *)
Definition withBackend (i : infineonClient) (backend : openai.Client)
  : infineonClient :=
  {| providerOptions := providerOptions i; options := options i;
     client := backend |}.

(** X2: send and stream call the backend at attempt indices 0 to
    maxRetries - 1 only: two backends that agree there give the same
    result and the same events. *)
Theorem attempts_bounded_by_maxRetries (i : infineonClient)
    (backend : openai.Client) (messages : list message.Message)
    (tools : list tools.BaseTool) :
  ((forall k params, 0 <= k < maxRetries ->
      openai.CreateChatCompletion (client i) k params
      = openai.CreateChatCompletion backend k params) ->
   infineon_send (withBackend i backend) messages tools
   = infineon_send i messages tools)
  /\ ((forall k params, 0 <= k < maxRetries ->
         openai.CreateChatCompletionStream (client i) k params
         = openai.CreateChatCompletionStream backend k params) ->
      infineon_stream (withBackend i backend) messages tools
      = infineon_stream i messages tools).
Proof.
  split; intros Hsame.
  - unfold infineon_send, requestCompletion.
    rewrite (attemptLoop_ext
               (fun attempts =>
                  openai.CreateChatCompletion (client (withBackend i backend))
                    attempts _) (sendCall i messages tools)); [reflexivity|].
    intros j Hj. symmetry. apply Hsame. unfold maxRetries in *. cbn in Hj. lia.
  - unfold infineon_stream, openStream.
    rewrite (attemptLoop_ext
               (fun attempts =>
                  openai.CreateChatCompletionStream
                    (client (withBackend i backend)) attempts _)
               (streamCall i messages tools)); [reflexivity|].
    intros j Hj. symmetry. apply Hsame. unfold maxRetries in *. cbn in Hj. lia.
Qed.

(** X3: when the first [k] backend calls fail with transient errors and
    the next call succeeds, with [k] below maxRetries, send goes on with
    that completion and stream with that stream handle. *)
Theorem retry_until_success (i : infineonClient)
    (messages : list message.Message) (tools : list tools.BaseTool)
    (k : nat) :
  Z.of_nat k < maxRetries ->
  (forall completion,
     (forall j, 0 <= j < Z.of_nat k ->
                exists err, sendCall i messages tools j = inr err
                            /\ transient err) ->
     sendCall i messages tools (Z.of_nat k) = inl completion ->
     requestCompletion i messages tools = go.Done (inl completion))
  /\ (forall s,
        (forall j, 0 <= j < Z.of_nat k ->
                   exists err, streamCall i messages tools j = inr err
                               /\ transient err) ->
        streamCall i messages tools (Z.of_nat k) = inl s ->
        infineon_stream i messages tools
        = go.Done (event EventContentStart :: consume s initialState)).
Proof.
  intros Hk. unfold maxRetries in Hk. split.
  - intros completion Hfail Hok. unfold requestCompletion.
    change (attemptLoop (sendCall i messages tools)
                        (Z.to_nat (maxRetries - 1)) 0
            = go.Done (inl completion)).
    rewrite (attemptLoop_skip _ k); unfold maxRetries; try lia;
      [|exact Hfail].
    apply attemptLoop_first. exact Hok.
  - intros s Hfail Hok. apply stream_opened. unfold openStream.
    change (attemptLoop (streamCall i messages tools)
                        (Z.to_nat (maxRetries - 1)) 0
            = go.Done (inl s)).
    rewrite (attemptLoop_skip _ k); unfold maxRetries; try lia;
      [|exact Hfail].
    apply attemptLoop_first. exact Hok.
Qed.

(** The loop ends at a failure the policy does not retry. *)
Lemma attemptLoop_permanent {A : Type} (call : Z -> A + go.error)
    (more : nat) (attempts : Z) (err : go.error) :
  call attempts = inr err -> permanent err ->
  attemptLoop call more attempts = go.Done (inr err).
Proof.
  intros Hcall Herr.
  destruct more; cbn [attemptLoop]; rewrite Hcall,
    (shouldRetry_permanent attempts err Herr); reflexivity.
Qed.

(** X4: after any number of transient failures, the first failure that is
    not retryable ends send with exactly that error and no response, and
    ends stream with the single Error event carrying it; no later backend
    call is made. *)
Theorem permanent_failure_is_returned (i : infineonClient)
    (messages : list message.Message) (tools : list tools.BaseTool)
    (k : nat) (err : go.error) :
  Z.of_nat k < maxRetries ->
  permanent err ->
  ((forall j, 0 <= j < Z.of_nat k ->
              exists e, sendCall i messages tools j = inr e /\ transient e) ->
   sendCall i messages tools (Z.of_nat k) = inr err ->
   infineon_send i messages tools = go.Done (None, Some err))
  /\ ((forall j, 0 <= j < Z.of_nat k ->
                 exists e, streamCall i messages tools j = inr e
                           /\ transient e) ->
      streamCall i messages tools (Z.of_nat k) = inr err ->
      infineon_stream i messages tools = go.Done [errorEvent err]).
Proof.
  intros Hk Herr. unfold maxRetries in Hk. split; intros Hfail Hcall.
  - unfold infineon_send, requestCompletion.
    change (attemptLoop ?f (Z.to_nat (maxRetries - 1)) 0)
      with (attemptLoop (sendCall i messages tools)
                        (Z.to_nat (maxRetries - 1)) 0).
    rewrite (attemptLoop_skip _ k); unfold maxRetries; try lia;
      [|exact Hfail].
    rewrite (attemptLoop_permanent _ _ _ err Hcall Herr). reflexivity.
  - unfold infineon_stream, openStream.
    change (attemptLoop ?f (Z.to_nat (maxRetries - 1)) 0)
      with (attemptLoop (streamCall i messages tools)
                        (Z.to_nat (maxRetries - 1)) 0).
    rewrite (attemptLoop_skip _ k); unfold maxRetries; try lia;
      [|exact Hfail].
    rewrite (attemptLoop_permanent _ _ _ err Hcall Herr). reflexivity.
Qed.

(** What send returns, and stream reports, when the last allowed attempt
    fails with a transient error: a 429 is handed back as it is, a 5xx
    wrapped in the max-retries error. *)
Definition exhaustedError (err : go.error) (apiErr : go.APIError) : go.error :=
  if bool_decide (go.StatusCode apiErr = 429) then err
  else go.wrapError "max retries reached: " err.

Lemma attemptLoop_last {A : Type} (call : Z -> A + go.error)
    (err : go.error) (apiErr : go.APIError) :
  call (maxRetries - 1) = inr err ->
  go.errors_As_APIError err = Some apiErr ->
  go.StatusCode apiErr = 429 \/ 500 <= go.StatusCode apiErr < 600 ->
  attemptLoop call 0 (maxRetries - 1)
  = go.Done (inr (exhaustedError err apiErr)).
Proof.
  intros Hcall Has Hstatus. cbn [attemptLoop]. rewrite Hcall.
  unfold shouldRetry, exhaustedError. rewrite Has.
  destruct (backoff_nonneg (maxRetries - 1) ltac:(unfold maxRetries; lia))
    as [b Hb].
  case_bool_decide as H429.
  - destruct (if bool_decide _ then _ else _); [reflexivity|].
    rewrite Hb. reflexivity.
  - rewrite bool_decide_eq_true_2 by lia.
    rewrite bool_decide_eq_true_2 by lia. reflexivity.
Qed.

Lemma attemptLoop_exhausted {A : Type} (call : Z -> A + go.error)
    (err : go.error) (apiErr : go.APIError) :
  (forall j, 0 <= j < maxRetries - 1 ->
             exists e, call j = inr e /\ transient e) ->
  call (maxRetries - 1) = inr err ->
  go.errors_As_APIError err = Some apiErr ->
  go.StatusCode apiErr = 429 \/ 500 <= go.StatusCode apiErr < 600 ->
  attemptLoop call (Z.to_nat (maxRetries - 1)) 0
  = go.Done (inr (exhaustedError err apiErr)).
Proof.
  intros Hfail Hcall Has Hstatus.
  rewrite (attemptLoop_skip call 7 (Z.to_nat (maxRetries - 1)) 0);
    try (unfold maxRetries; cbn; lia).
  - apply (attemptLoop_last call err apiErr Hcall Has Hstatus).
  - intros j Hj. apply Hfail. unfold maxRetries. lia.
Qed.

(** X5: when all maxRetries attempts fail with transient errors, send
    returns no response and stream sends one Error event, with the error of
    the last attempt: as it is for status 429, wrapped in the max-retries
    error for a 5xx status. *)
Theorem retries_exhausted (i : infineonClient)
    (messages : list message.Message) (tools : list tools.BaseTool)
    (err : go.error) (apiErr : go.APIError) :
  go.errors_As_APIError err = Some apiErr ->
  go.StatusCode apiErr = 429 \/ 500 <= go.StatusCode apiErr < 600 ->
  ((forall j, 0 <= j < maxRetries - 1 ->
              exists e, sendCall i messages tools j = inr e /\ transient e) ->
   sendCall i messages tools (maxRetries - 1) = inr err ->
   infineon_send i messages tools
   = go.Done (None, Some (exhaustedError err apiErr)))
  /\ ((forall j, 0 <= j < maxRetries - 1 ->
                 exists e, streamCall i messages tools j = inr e
                           /\ transient e) ->
      streamCall i messages tools (maxRetries - 1) = inr err ->
      infineon_stream i messages tools
      = go.Done [errorEvent (exhaustedError err apiErr)]).
Proof.
  intros Has Hstatus. split; intros Hfail Hcall.
  - unfold infineon_send, requestCompletion.
    change (attemptLoop ?f (Z.to_nat (maxRetries - 1)) 0)
      with (attemptLoop (sendCall i messages tools)
                        (Z.to_nat (maxRetries - 1)) 0).
    rewrite (attemptLoop_exhausted _ err apiErr Hfail Hcall Has Hstatus).
    reflexivity.
  - unfold infineon_stream, openStream.
    change (attemptLoop ?f (Z.to_nat (maxRetries - 1)) 0)
      with (attemptLoop (streamCall i messages tools)
                        (Z.to_nat (maxRetries - 1)) 0).
    rewrite (attemptLoop_exhausted _ err apiErr Hfail Hcall Has Hstatus).
    reflexivity.
Qed.

(** * Further properties of the stream translator *)

(** X6: when a Recv call fails with an error other than end of stream,
    the events are ContentStart, the body events of the chunks received so
    far and one Error event carrying that error: no ToolUseStop, ContentStop
    or Complete follows. *)
Theorem stream_transport_error (i : infineonClient)
    (messages : list message.Message) (tools : list tools.BaseTool)
    (s : openai.ChatCompletionStream) (err : go.error) :
  openStream i messages tools = go.Done (inl s) ->
  (received s).2 = Some err ->
  exists body,
    infineon_stream i messages tools
    = go.Done (event EventContentStart :: body ++ [errorEvent err])
    /\ body = (runChunks initialState (received s).1).2
    /\ Forall bodyEvent body.
Proof.
  intros Hopen Hfail. exists (runChunks initialState (received s).1).2.
  split; [|split; [reflexivity|apply runChunks_events]].
  rewrite (stream_opened _ _ _ _ Hopen), consume_received, Hfail.
  reflexivity.
Qed.

(** The events the tool-call loop sends are ToolUseStart and ToolUseDelta
    events only. *)
Definition toolUseEvent (ev : ProviderEvent) : Prop :=
  Typ ev = EventToolUseStart \/ Typ ev = EventToolUseDelta.

Lemma handleToolCallDelta_toolUse (tcs : list message.ToolCall)
    (d : openai.ChatCompletionChunkChoiceDeltaToolCall) :
  Forall toolUseEvent (handleToolCallDelta tcs d).2.
Proof.
  unfold handleToolCallDelta, startToolCall, updateToolCall.
  destruct (openai.d_ID d), (openai.d_Function_Arguments d);
    repeat case_bool_decide; cbn;
    repeat (constructor; [unfold toolUseEvent; cbn; tauto|]); constructor.
Qed.

Lemma handleToolCallDeltas_toolUse
    (ds : list openai.ChatCompletionChunkChoiceDeltaToolCall)
    (tcs : list message.ToolCall) :
  Forall toolUseEvent (handleToolCallDeltas tcs ds).2.
Proof.
  revert tcs. induction ds as [|d ds IH]; intros tcs; [constructor|].
  rewrite handleToolCallDeltas_cons. cbn [snd]. apply Forall_app.
  split; [apply handleToolCallDelta_toolUse|apply IH].
Qed.

(** The texts carried by the ContentDelta events, in order. *)
Definition textOf (evs : list ProviderEvent) : list string :=
  omap (fun ev => if decide (Typ ev = EventContentDelta)
                  then Some (ev_Content ev) else None) evs.

Lemma textOf_app (evs1 evs2 : list ProviderEvent) :
  textOf (evs1 ++ evs2) = textOf evs1 ++ textOf evs2.
Proof. apply omap_app. Qed.

Lemma textOf_other (evs : list ProviderEvent) :
  Forall (fun ev => Typ ev <> EventContentDelta) evs -> textOf evs = [].
Proof.
  unfold textOf. induction 1 as [|ev evs Hev _ IH]; [reflexivity|].
  rewrite omap_cons_match, decide_False by exact Hev. exact IH.
Qed.

Lemma handleChunk_text (st : streamState) (chunk : openai.ChatCompletionChunk) :
  textOf (handleChunk st chunk).2
  = match chunkContent chunk with Some text => [text] | None => [] end.
Proof.
  unfold handleChunk, chunkContent.
  destruct (openai.c_Choices chunk) as [|choice ?]; [reflexivity|].
  assert (textOf (handleToolCallDeltas (st_toolCalls st)
                    (openai.d_ToolCalls (openai.Delta choice))).2 = [])
    as Ht.
  { apply textOf_other. eapply Forall_impl;
      [apply handleToolCallDeltas_toolUse|].
    intros ev [H|H]; rewrite H; congruence. }
  destruct (openai.d_Content (openai.Delta choice));
    case_bool_decide;
    destruct (handleToolCallDeltas _ _) as [tcs sent]; cbn [fst snd] in *;
    rewrite ?textOf_app, ?Ht; reflexivity.
Qed.

Lemma runChunks_text (chunks : list openai.ChatCompletionChunk)
    (st : streamState) :
  textOf (runChunks st chunks).2 = omap chunkContent chunks.
Proof.
  revert st. induction chunks as [|chunk rest IH]; intros st; [reflexivity|].
  cbn [runChunks]. pose proof (handleChunk_text st chunk) as Hc.
  destruct (handleChunk st chunk) as [st1 sent1].
  specialize (IH st1). destruct (runChunks st1 rest) as [st2 sent2].
  cbn [snd] in *. rewrite textOf_app, Hc, IH, omap_cons_match.
  destruct (chunkContent chunk); reflexivity.
Qed.

(** X7: on a clean end of stream the ContentDelta events carry, one each
    and in order, the text deltas of the chunks (first choice), and the
    content of the response in Complete is the concatenation of the texts
    the ContentDelta events carried. *)
Theorem content_deltas_add_up (i : infineonClient)
    (messages : list message.Message) (tools : list tools.BaseTool)
    (s : openai.ChatCompletionStream) :
  openStream i messages tools = go.Done (inl s) ->
  (received s).2 = None ->
  exists evs response,
    infineon_stream i messages tools = go.Done evs
    /\ last evs = Some (completeEvent response)
    /\ textOf evs = omap chunkContent (received s).1
    /\ Content response = concatFragments (textOf evs).
Proof.
  intros Hopen Hclean.
  pose proof (runChunks_text (received s).1 initialState) as Htext.
  destruct (runChunks_state (received s).1 initialState) as (Hc & _ & _).
  eexists _, (finalResponse (runChunks initialState (received s).1).1).
  split; [exact (stream_clean _ _ _ s Hopen Hclean)|].
  split.
  - change (event EventContentStart :: ?l)
      with ([event EventContentStart] ++ l).
    rewrite !(assoc_L (++)).
    change [event EventContentStop; completeEvent ?r]
      with ([event EventContentStop] ++ [completeEvent r]).
    rewrite !(assoc_L (++)). apply last_snoc.
  - assert (textOf
              (event EventContentStart
               :: (runChunks initialState (received s).1).2
               ++ map (toolEvent EventToolUseStop)
                      (st_toolCalls (runChunks initialState (received s).1).1)
               ++ [event EventContentStop;
                   completeEvent
                     (finalResponse
                        (runChunks initialState (received s).1).1)])
            = omap chunkContent (received s).1) as Hall.
    { change (event EventContentStart :: ?l)
        with ([event EventContentStart] ++ l).
      rewrite !textOf_app, Htext.
      rewrite (textOf_other (map _ _))
        by (apply toolUseStop_events; congruence).
      cbn. rewrite app_nil_r. reflexivity. }
    rewrite Hall. split; [reflexivity|]. exact Hc.
Qed.

(** X8: the slice of tool calls only grows, at its end, by the calls the
    ToolUseStart events announce, in order; identifiers already in the
    slice are never changed; and every ToolUseStart event carries a call
    with empty name and empty input, whatever the starting delta held. *)
Theorem tool_calls_grow_only
    (ds : list openai.ChatCompletionChunkChoiceDeltaToolCall)
    (tcs : list message.ToolCall) :
  map message.ID (handleToolCallDeltas tcs ds).1
  = map message.ID tcs
    ++ map message.ID
         (callsOf EventToolUseStart (handleToolCallDeltas tcs ds).2)
  /\ Forall (fun c => message.Name c = "" /\ message.Input c = "")
            (callsOf EventToolUseStart (handleToolCallDeltas tcs ds).2).
Proof.
  split; [apply handleToolCallDeltas_ids|].
  revert tcs. induction ds as [|d ds IH]; intros tcs; [constructor|].
  rewrite handleToolCallDeltas_cons. cbn [snd]. rewrite callsOf_app.
  apply Forall_app. split; [|apply IH].
  unfold handleToolCallDelta, startToolCall, updateToolCall.
  destruct (openai.d_ID d), (openai.d_Function_Arguments d);
    repeat case_bool_decide; cbn;
    repeat (constructor; [split; reflexivity|]); constructor.
Qed.

(** X9: a delta whose index is outside the slice and that carries no
    identifier changes nothing and sends nothing; one that carries an
    identifier but whose index is not the position just past the slice
    starts a call there with empty name and input: the name and argument
    fragments of that delta are lost and no ToolUseDelta event is sent. *)
Theorem delta_outside_slice (tcs : list message.ToolCall)
    (d : openai.ChatCompletionChunkChoiceDeltaToolCall) :
  (openai.d_ID d = None ->
   openai.Index d < 0 \/ Z.of_nat (length tcs) <= openai.Index d ->
   handleToolCallDelta tcs d = (tcs, []))
  /\ (forall id,
        openai.d_ID d = Some id ->
        openai.Index d < 0 \/ Z.of_nat (length tcs) < openai.Index d ->
        handleToolCallDelta tcs d
        = (tcs ++ [{| message.ID := id; message.Name := "";
                      message.Input := "" |}],
           [toolEvent EventToolUseStart
              {| message.ID := id; message.Name := "";
                 message.Input := "" |}])).
Proof.
  unfold handleToolCallDelta, startToolCall, updateToolCall. split.
  - intros -> Hidx. rewrite bool_decide_eq_true_2 by exact Hidx.
    rewrite bool_decide_eq_false_2 by lia. reflexivity.
  - intros id -> Hidx. rewrite bool_decide_eq_true_2 by lia.
    rewrite bool_decide_eq_false_2; [reflexivity|].
    rewrite length_app. cbn. lia.
Qed.

(** A received item that is a chunk without choices. *)
Definition noChoices (item : openai.ChatCompletionChunk + go.error) : Prop :=
  match item with
  | inl chunk => openai.c_Choices chunk = []
  | inr _ => False
  end.

#[global] Instance noChoices_dec (item : openai.ChatCompletionChunk + go.error) :
  Decision (noChoices item).
Proof.
  destruct item as [chunk|err]; cbn; [|right; tauto].
  destruct (openai.c_Choices chunk); [left; reflexivity|right; discriminate].
Defined.

(** X10: chunks without choices have no effect: the consumption loop
    sends the same events, from any state, when they are taken out of what
    Recv returns. *)
Theorem chunks_without_choices_skipped
    (s : list (openai.ChatCompletionChunk + go.error)) (st : streamState) :
  consume (filter (fun item => ~ noChoices item) s) st = consume s st.
Proof.
  revert st. induction s as [|[chunk|err] rest IH]; intros st.
  - reflexivity.
  - rewrite filter_cons. destruct (decide (~ noChoices (inl chunk))) as [Hc|Hc].
    + cbn [consume]. destruct (handleChunk st chunk) as [st1 sent1].
      rewrite IH. reflexivity.
    + rewrite IH. cbn [consume]. unfold handleChunk.
      cbn in Hc. destruct (openai.c_Choices chunk); [reflexivity|].
      exfalso. apply Hc. discriminate.
  - rewrite filter_cons_True by (cbn; tauto). reflexivity.
Qed.

(** * Further properties of the conversions *)

Lemma foldl_append {A B : Type} (f : A -> list B) (l : list A)
    (init : list B) :
  foldl (fun acc x => acc ++ f x) init l = init ++ flat_map f l.
Proof.
  revert init. induction l as [|x l IH]; intros init; cbn.
  - rewrite app_nil_r. reflexivity.
  - rewrite IH, <- (assoc_L (++)). reflexivity.
Qed.

Lemma flat_map_singleton {A B : Type} (g : A -> B) (l : list A) :
  flat_map (fun x => [g x]) l = map g l.
Proof. induction l as [|x l IH]; cbn; [reflexivity|]. rewrite IH. reflexivity. Qed.

(** X11: the backend message list starts with the system message and is
    followed by the conversions of the messages, each on its own and in
    order; converting an extended list extends the converted list. *)
Theorem convertMessages_in_order (i : infineonClient)
    (messages more : list message.Message) :
  convertMessages i messages
  = openai.SystemMessage (systemMessage (providerOptions i))
    :: flat_map convertMessage messages
  /\ convertMessages i (messages ++ more)
     = convertMessages i messages ++ flat_map convertMessage more.
Proof.
  unfold convertMessages. rewrite !foldl_append, flat_map_app.
  split; [reflexivity|]. rewrite <- (assoc_L (++)). reflexivity.
Qed.

(** X12: a Tool message becomes one backend tool message per tool
    result, in order, each with the content and the call identifier of its
    result (none when it has no results); a User message becomes one
    backend user message whose parts are the text followed by one image
    reference per binary part, in order. *)
Theorem convertMessage_tool_and_user (msg : message.Message) :
  (message.Role msg = message.Tool ->
   convertMessage msg
   = map (fun result =>
            openai.OfTool
              {| openai.tm_Role := "tool";
                 openai.tm_Content := message.Content result;
                 openai.tm_ToolCallID := message.CallID result |})
         (message.ToolResults msg))
  /\ (message.Role msg = message.User ->
      convertMessage msg
      = [openai.UserMessage
           (openai.OfText (message.Content_String msg)
            :: map (fun binaryContent =>
                      openai.OfImageURL
                        (BinaryContent_String binaryContent
                                              models.ProviderInfineon))
                   (message.BinaryContents msg))]).
Proof.
  unfold convertMessage. split; intros ->.
  - rewrite (foldl_append (fun result => [openai.OfTool _])).
    rewrite flat_map_singleton. reflexivity.
  - rewrite (foldl_append (fun binaryContent => [openai.OfImageURL _])).
    rewrite flat_map_singleton. reflexivity.
Qed.

(** X13: the backend tool list has as many entries as there are tools,
    and a tool whose schema extraction succeeds is converted at its own
    position, with its name, description and schema. *)
Theorem convertTools_converts_in_place (i : infineonClient)
    (tools : list tools.BaseTool) :
  length (convertTools i tools) = length tools
  /\ forall (k : nat) (tool : tools.BaseTool) (schema : json.Object),
       tools !! k = Some tool ->
       tools.JSONSchema tool = inl schema ->
       convertTools i tools !! k
       = Some {| openai.tp_Type := "function";
                 openai.tp_Function_Name := tools.Name tool;
                 openai.tp_Function_Description :=
                   Some (tools.Description tool);
                 openai.tp_Function_Parameters := Some schema |}.
Proof.
  rewrite convertTools_slots. split; [apply length_map|].
  intros k tool schema Hk Hschema.
  change (map toolSlot tools) with (toolSlot <$> tools).
  rewrite list_lookup_fmap, Hk. cbn. unfold toolSlot. rewrite Hschema.
  reflexivity.
Qed.


(** X15: a successful send takes the tool calls of the first choice only
    and copies them in order: identifier, function name and arguments text,
    with none added or dropped. *)
Theorem send_copies_tool_calls (i : infineonClient)
    (messages : list message.Message) (tools : list tools.BaseTool)
    (completion : openai.ChatCompletion)
    (choice : openai.ChatCompletionChoice)
    (rest : list openai.ChatCompletionChoice) :
  requestCompletion i messages tools = go.Done (inl completion) ->
  openai.Choices completion = choice :: rest ->
  exists response,
    infineon_send i messages tools = go.Done (Some response, None)
    /\ ToolCalls response
       = map (fun call =>
                {| message.ID := openai.rc_ID call;
                   message.Name := openai.rc_Function_Name call;
                   message.Input := openai.rc_Function_Arguments call |})
             (openai.ToolCalls (openai.Message choice)).
Proof.
  intros Hreq Hchoices. unfold infineon_send. rewrite Hreq.
  cbn [mbind outcome_bind go.bind]. rewrite Hchoices.
  eexists. split; [reflexivity|]. cbn [ToolCalls]. unfold toolCalls.
  rewrite Hchoices. case_bool_decide as Hlen; [|reflexivity].
  destruct (openai.ToolCalls (openai.Message choice)); [reflexivity|].
  discriminate.
Qed.

(** * Further properties of the provider *)

(** X16: cleanMessages returns its input unchanged exactly when every
    message has at least one part, and never returns a longer list. *)
Theorem cleanMessages_unchanged_iff (messages : list message.Message) :
  (cleanMessages messages = messages <-> Forall hasParts messages)
  /\ (length (cleanMessages messages) <= length messages)%nat.
Proof.
  rewrite cleanMessages_filter. split; [|apply length_filter].
  split.
  - intros Heq. apply Forall_forall. intros msg Hin.
    rewrite <- Heq in Hin. apply list_elem_of_filter in Hin. tauto.
  - induction 1 as [|msg rest Hmsg _ IH]; [reflexivity|].
    rewrite filter_cons_True by exact Hmsg. rewrite IH. reflexivity.
Qed.



End Provider.

(** ** Concrete externals for closed examples

    A stand-in JSON codec (an object is kept as its text, and a text is
    accepted when it opens with a brace), a duration parser that knows two
    texts, and backends given by explicit scripts. *)

Module demo.

#[export] Instance codec : json.Codec :=
  {| json.Object := string;
     json.Unmarshal := fun s =>
       if bool_decide (substring 0 1 s = "{") then Some s else None;
     json.Marshal := fun o => Some o |}.

Definition parseDuration (s : string) : option Z :=
  if bool_decide (s = "2s") then Some 2000000000
  else if bool_decide (s = "1.5s") then Some 1500000000
  else None.

Definition binaryString (b : message.BinaryContent)
    (p : models.ModelProvider) : string :=
  "data:" +:+ message.MIMEType b +:+ ";base64," +:+ message.Data b.

Definition opts : providerClientOptions unit :=
  {| apiKey := "k"; model := models.zero; maxTokens := 0;
     systemMessage := "sys"; openaiOptions := [];
     infineonOptions_ := [] |}.

(** A client whose calls all return the given results. *)
Definition clientOf (completion : openai.ChatCompletion + go.error)
    (s : openai.ChatCompletionStream + go.error) : infineonClient unit :=
  {| providerOptions := opts;
     options := {| baseURL := ""; disableCache := false; extraHeaders := None |};
     client := {| openai.CreateChatCompletion := fun _ _ => completion;
                  openai.CreateChatCompletionStream := fun _ _ => s |} |}.

Definition toolDelta (index : Z) (id name arguments : option string)
  : openai.ChatCompletionChunkChoiceDeltaToolCall :=
  {| openai.Index := index; openai.d_ID := id;
     openai.d_Function_Name := name;
     openai.d_Function_Arguments := arguments |}.

Definition toolChunk (ds : list openai.ChatCompletionChunkChoiceDeltaToolCall)
    (reason : string) : openai.ChatCompletionChunk :=
  {| openai.c_Choices :=
       [ {| openai.Delta := {| openai.d_Content := None;
                               openai.d_ToolCalls := ds |};
            openai.c_FinishReason := reason |} ] |}.

(** The run of the specification scenario, with the name sent in two
    fragments and the arguments in two fragments. *)
Definition scenario : openai.ChatCompletionStream :=
  [ inl (toolChunk [toolDelta 0 (Some "c1") None None] "");
    inl (toolChunk [toolDelta 0 None (Some "look") None] "");
    inl (toolChunk [toolDelta 0 None (Some "up") None] "");
    inl (toolChunk [toolDelta 0 None None (Some "{q:")] "");
    inl (toolChunk [toolDelta 0 None None (Some "1}")] "tool_calls") ].

Definition streaming : infineonClient unit :=
  clientOf (inr go.io_EOF) (inl scenario).

Definition apiErrorOf (status : Z) (retryAfter : string) : go.error :=
  go.apiError {| go.StatusCode := status;
                 go.Response_Header_Retry_After := retryAfter |}.

(** A backend that refuses every call with status 400. *)
Definition refusing : infineonClient unit :=
  clientOf (inr (apiErrorOf 400 "")) (inr (apiErrorOf 400 "")).

Definition completionOf (choices : list openai.ChatCompletionChoice)
  : openai.ChatCompletion :=
  {| openai.Choices := choices;
     openai.Usage := {| openai.PromptTokens := 12;
                        openai.CompletionTokens := 34 |} |}.

Definition plainChoice : openai.ChatCompletionChoice :=
  {| openai.Message := {| openai.Content := None; openai.ToolCalls := [] |};
     openai.FinishReason := "eos" |}.

Definition goodTool : tools.BaseTool :=
  {| tools.Name := "ls"; tools.Description := "list files";
     tools.JSONSchema := inl "{}" |}.

Definition badTool : tools.BaseTool :=
  {| tools.Name := "rm"; tools.Description := "remove files";
     tools.JSONSchema := inr (go.errorString "no schema") |}.

Definition assistantMessage : message.Message :=
  {| message.Role := message.Assistant;
     message.Parts :=
       [ message.ToolCallPart
           {| message.ID := "a"; message.Name := "ls";
              message.Input := "{}" |};
         message.ToolCallPart
           {| message.ID := "b"; message.Name := "rm";
              message.Input := "not json" |} ] |}.

(** The factory over these externals; the OpenAI backend, whose file is
    absent, is stood in for by a second Infineon client. *)
Definition newClient (_ : list RequestOption) : openai.Client :=
  client unit streaming.

Definition newProvider (providerName : models.ModelProvider)
    (opts : list (ProviderClientOption unit))
  : go.outcome (option Provider * option go.error) :=
  @NewProvider codec parseDuration binaryString newClient unit
    (infineonClient unit) (InfineonClient parseDuration binaryString unit)
    (newInfineonClient newClient unit) providerName opts.

End demo.

(** * Closed instances *)

#[local] Existing Instance demo.codec.

(** C1, as stated, fails on the name: with the name fragments look and up
    sent for index 0, the call carried by Complete is named up, not
    lookup. *)
Lemma C1_name_is_not_concatenated :
  exists evs response call,
    infineon_stream demo.parseDuration demo.binaryString unit
                    demo.streaming [] []
    = go.Done evs
    /\ last evs = Some (completeEvent response)
    /\ ToolCalls response = [call]
    /\ nameFragments (forIndex 0 (allDeltas (received demo.scenario).1))
       = ["look"; "up"]
    /\ message.Name call = "up"
    /\ message.Name call <> concatFragments ["look"; "up"].
Proof.
  eexists _, _, _. split; [vm_compute; reflexivity|].
  split; [reflexivity|]. split; [reflexivity|].
  split; [reflexivity|]. split; [reflexivity|]. discriminate.
Qed.

Lemma C1_witness :
  exists body calls response,
    infineon_stream demo.parseDuration demo.binaryString unit
                    demo.streaming [] []
    = go.Done (event EventContentStart
               :: body
               ++ map (toolEvent EventToolUseStop) calls
               ++ [event EventContentStop; completeEvent response])
    /\ calls !! 0%nat
       = Some {| message.ID := "c1"; message.Name := "up";
                 message.Input := "{q:1}" |}.
Proof.
  destruct (@C1_tool_call_assembly demo.codec demo.parseDuration
              demo.binaryString unit demo.streaming [] [] demo.scenario
              [] (skipn 1 (allDeltas (received demo.scenario).1))
              (demo.toolDelta 0 (Some "c1") None None) "c1"
              eq_refl eq_refl eq_refl (or_intror (Z.le_refl 0)) eq_refl)
    as (body & calls & response & Hrun & _ & Hcall & _).
  exists body, calls, response. split; [exact Hrun|exact Hcall].
Defined.

(** C2: the conversion at a tool whose schema extraction fails and at a
    tool call whose input does not parse.  Each output has as many entries
    as the input; the failed item is there as a zero-valued entry. *)
Lemma C2_failed_item_leaves_zero_entry :
  convertTools unit demo.streaming [demo.goodTool; demo.badTool]
  = [ {| openai.tp_Type := "function"; openai.tp_Function_Name := "ls";
         openai.tp_Function_Description := Some "list files";
         openai.tp_Function_Parameters := Some "{}" |};
      openai.zeroToolParam ]
  /\ convertMessages demo.binaryString unit demo.streaming
       [demo.assistantMessage]
     = [ openai.SystemMessage "sys";
         openai.OfAssistant
           {| openai.am_Role := "assistant"; openai.am_Content := None;
              openai.am_ToolCalls :=
                [ {| openai.tc_ID := "a"; openai.tc_Type := "function";
                     openai.tc_Function_Name := "ls";
                     openai.tc_Function_Arguments := "{}" |};
                  openai.zeroToolCallParam ] |} ].
Proof. split; reflexivity. Qed.

Lemma C3_witness :
  exists evs,
    infineon_stream demo.parseDuration demo.binaryString unit
                    demo.refusing [] []
    = go.Done evs
    /\ evs = [errorEvent (demo.apiErrorOf 400 "")]
    /\ countEvents EventContentStart evs = 0%nat.
Proof.
  destruct (@C3_stream_closes_once demo.codec demo.parseDuration
              demo.binaryString unit demo.refusing [] [])
    as (evs & Hrun & _ & _ & Hfail & _).
  exists evs. split; [exact Hrun|]. apply Hfail. reflexivity.
Defined.

(** C4, as stated, fails at attempt index 54: the int64 product wraps
    around and the delay is negative. *)
Lemma C4_backoff_wraps_at_54 :
  shouldRetry demo.parseDuration 54 (demo.apiErrorOf 429 "")
  = go.Done (true, -432345564227567616, None)
  /\ -432345564227567616 <> 1000 * 2 ^ 54.
Proof. split; [reflexivity|discriminate]. Qed.

Lemma C4_witness :
  shouldRetry demo.parseDuration 0 (demo.apiErrorOf 429 "")
  = go.Done (true, 1000, None)
  /\ shouldRetry demo.parseDuration 3 (demo.apiErrorOf 429 "")
     = go.Done (true, 8000, None)
  /\ shouldRetry demo.parseDuration 3 (demo.apiErrorOf 429 "1.5")
     = go.Done (true, 1500, None).
Proof.
  pose proof (C4_rate_limit_decision demo.parseDuration 0
                (demo.apiErrorOf 429 "") _ eq_refl eq_refl) as [H0 _].
  pose proof (C4_rate_limit_decision demo.parseDuration 3
                (demo.apiErrorOf 429 "") _ eq_refl eq_refl) as [H3 _].
  pose proof (C4_rate_limit_decision demo.parseDuration 3
                (demo.apiErrorOf 429 "1.5") _ eq_refl eq_refl) as [_ Hafter].
  split; [|split].
  - apply (H0 eq_refl). lia.
  - apply (H3 eq_refl). lia.
  - exact (Hafter 1500000000 eq_refl).
Defined.

Lemma C5_witness :
  shouldRetry demo.parseDuration 6 (demo.apiErrorOf 500 "")
  = go.Done (true, 64000, None)
  /\ shouldRetry demo.parseDuration 7 (demo.apiErrorOf 500 "")
     = go.Done (false, 0,
                Some (go.wrapError "max retries reached: "
                                   (demo.apiErrorOf 500 ""))).
Proof.
  destruct (C5_server_error_decision demo.parseDuration 6
              (demo.apiErrorOf 500 "") _ eq_refl ltac:(cbn; lia))
    as (_ & Hretry & _).
  destruct (C5_server_error_decision demo.parseDuration 7
              (demo.apiErrorOf 500 "") _ eq_refl ltac:(cbn; lia))
    as (_ & _ & Hfatal).
  split; [apply Hretry; unfold maxRetries; lia
         |apply Hfatal; unfold maxRetries; lia].
Defined.

Lemma C7_witness :
  infineon_send demo.parseDuration demo.binaryString unit
    (demo.clientOf (inl (demo.completionOf [])) (inr go.io_EOF)) [] []
  = go.Done (None, Some (go.errorString "no choices returned"))
  /\ exists response,
       infineon_send demo.parseDuration demo.binaryString unit
         (demo.clientOf (inl (demo.completionOf [demo.plainChoice]))
                        (inr go.io_EOF)) [] []
       = go.Done (Some response, None)
       /\ Content response = ""
       /\ FinishReason response = message.FinishReasonUnknown.
Proof.
  split.
  - apply (@C7_send_assembly demo.codec demo.parseDuration demo.binaryString
             unit
             (demo.clientOf (inl (demo.completionOf [])) (inr go.io_EOF))
             [] [] (demo.completionOf []) eq_refl). reflexivity.
  - destruct (@C7_send_assembly demo.codec demo.parseDuration
                demo.binaryString unit
                (demo.clientOf (inl (demo.completionOf [demo.plainChoice]))
                               (inr go.io_EOF))
                [] [] (demo.completionOf [demo.plainChoice]) eq_refl)
      as (_ & Hsome & _).
    destruct (Hsome demo.plainChoice [] eq_refl)
      as (response & Hrun & Hcontent & Hreason).
    exists response. split; [exact Hrun|]. split; [exact Hcontent|exact Hreason].
Defined.

Lemma C8_witness :
  exists body calls response,
    infineon_stream demo.parseDuration demo.binaryString unit
                    demo.streaming [] []
    = go.Done (event EventContentStart
               :: body
               ++ map (toolEvent EventToolUseStop) calls
               ++ [event EventContentStop; completeEvent response])
    /\ map message.ID (callsOf EventToolUseStart body) = map message.ID calls
    /\ ToolCalls response = calls
    /\ FinishReason response = message.FinishReasonToolCalls.
Proof.
  destruct (@C8_clean_end_of_stream demo.codec demo.parseDuration
              demo.binaryString unit demo.streaming [] [] demo.scenario
              eq_refl eq_refl)
    as (body & calls & response & Hrun & _ & Hids & _ & Hcalls & Hreason).
  exists body, calls, response.
  split; [exact Hrun|]. split; [exact Hids|]. split; [exact Hcalls|exact Hreason].
Defined.

Lemma C9_witness :
  (exists front response,
     infineon_stream demo.parseDuration demo.binaryString unit
                     demo.streaming [] []
     = go.Done (front ++ [completeEvent response])
     /\ Usage response = zeroTokenUsage)
  /\ exists response,
       infineon_send demo.parseDuration demo.binaryString unit
         (demo.clientOf (inl (demo.completionOf [demo.plainChoice]))
                        (inr go.io_EOF)) [] []
       = go.Done (Some response, None)
       /\ InputTokens (Usage response) = 12
       /\ OutputTokens (Usage response) = 34.
Proof.
  split.
  - destruct (@C9_usage_accounting demo.codec demo.parseDuration
                demo.binaryString unit demo.streaming [] []) as [Hstream _].
    destruct (Hstream demo.scenario eq_refl eq_refl)
      as (front & response & Hrun & _ & H1 & H2 & H3 & H4).
    exists front, response. split; [exact Hrun|].
    destruct response as [c t [u1 u2 u3 u4] f]. cbn in *. subst. reflexivity.
  - destruct (@C9_usage_accounting demo.codec demo.parseDuration
                demo.binaryString unit
                (demo.clientOf (inl (demo.completionOf [demo.plainChoice]))
                               (inr go.io_EOF)) [] []) as [_ Hsend].
    exact (Hsend (demo.completionOf [demo.plainChoice]) demo.plainChoice []
                 eq_refl eq_refl).
Defined.

Lemma C10_witness :
  demo.newProvider "__mock" [] = go.Panic "not implemented"
  /\ demo.newProvider "anthropic" []
     = go.Done (None,
                Some (go.errorString "provider not supported: anthropic")).
Proof.
  unfold demo.newProvider. split.
  - apply (@C10_factory_dispatch demo.codec demo.parseDuration
             demo.binaryString demo.newClient unit (infineonClient unit)
             _ _ "__mock" []). reflexivity.
  - apply (@C10_factory_dispatch demo.codec demo.parseDuration
             demo.binaryString demo.newClient unit (infineonClient unit)
             _ _ "anthropic" []); discriminate.
Defined.

(** * Closed instances of the further properties *)

Module cases.

(** A client whose backend answers by attempt index. *)
Definition clientWith (completions : Z -> openai.ChatCompletion + go.error)
    (streams : Z -> openai.ChatCompletionStream + go.error)
  : infineonClient unit :=
  {| providerOptions := demo.opts;
     options := {| baseURL := ""; disableCache := false;
                   extraHeaders := None |};
     client := {| openai.CreateChatCompletion := fun k _ => completions k;
                  openai.CreateChatCompletionStream := fun k _ => streams k |} |}.

Definition completion : openai.ChatCompletion :=
  demo.completionOf [demo.plainChoice].

(** Fails with [err] below attempt index [n], then answers. *)
Definition failingUntil (n : Z) (err : go.error) : infineonClient unit :=
  clientWith (fun k => if bool_decide (k < n) then inr err else inl completion)
             (fun k => if bool_decide (k < n) then inr err
                       else inl demo.scenario).

(** Fails with status 500 at attempt index 0, then with status 400. *)
Definition refusedAfterRetry : infineonClient unit :=
  clientWith (fun k => if bool_decide (k < 1) then inr (demo.apiErrorOf 500 "")
                       else inr (demo.apiErrorOf 400 ""))
             (fun k => if bool_decide (k < 1) then inr (demo.apiErrorOf 500 "")
                       else inr (demo.apiErrorOf 400 "")).

Definition textChunk (text : string) : openai.ChatCompletionChunk :=
  {| openai.c_Choices :=
       [ {| openai.Delta := {| openai.d_Content := Some text;
                               openai.d_ToolCalls := [] |};
            openai.c_FinishReason := "" |} ] |}.

(** Two text chunks, then a broken connection. *)
Definition broken : openai.ChatCompletionStream :=
  [ inl (textChunk "Hel"); inl (textChunk "lo");
    inr (go.errorString "connection reset") ].

Definition spoken : openai.ChatCompletionStream :=
  [ inl (textChunk "Hel"); inl (textChunk "lo") ].

Definition toolMessage : message.Message :=
  {| message.Role := message.Tool;
     message.Parts :=
       [ message.ToolResultPart
           {| message.CallID := "a"; message.Content := "ok" |};
         message.TextPart "ignored";
         message.ToolResultPart
           {| message.CallID := "b"; message.Content := "failed" |} ] |}.

End cases.

Lemma shouldRetry_permanent_witness :
  shouldRetry demo.parseDuration (-5) (demo.apiErrorOf 404 "")
  = go.Done (false, 0, None)
  /\ shouldRetry demo.parseDuration 2 (go.errorString "dial tcp: timeout")
     = go.Done (false, 0, None).
Proof.
  split; apply shouldRetry_permanent; cbn; [split; lia|exact I].
Defined.

Lemma attempts_bounded_by_maxRetries_witness :
  infineon_send demo.parseDuration demo.binaryString unit
    (withBackend unit (cases.failingUntil 8 (demo.apiErrorOf 429 ""))
       (client unit (demo.clientOf (inr (demo.apiErrorOf 429 ""))
                                   (inr (demo.apiErrorOf 429 "")))))
    [] []
  = infineon_send demo.parseDuration demo.binaryString unit
      (cases.failingUntil 8 (demo.apiErrorOf 429 "")) [] [].
Proof.
  apply (@attempts_bounded_by_maxRetries demo.codec demo.parseDuration
           demo.binaryString unit).
  intros k params Hk. cbn. unfold maxRetries in Hk.
  rewrite bool_decide_eq_true_2 by lia. reflexivity.
Defined.

Lemma retry_until_success_witness :
  requestCompletion demo.parseDuration demo.binaryString unit
    (cases.failingUntil 2 (demo.apiErrorOf 429 "")) [] []
  = go.Done (inl cases.completion).
Proof.
  apply (@retry_until_success demo.codec demo.parseDuration
           demo.binaryString unit
           (cases.failingUntil 2 (demo.apiErrorOf 429 "")) [] [] 2%nat).
  - unfold maxRetries. lia.
  - intros j Hj. exists (demo.apiErrorOf 429 ""). split.
    + cbn. rewrite bool_decide_eq_true_2 by lia. reflexivity.
    + eexists. split; [reflexivity|left; reflexivity].
  - reflexivity.
Defined.

Lemma permanent_failure_is_returned_witness :
  infineon_send demo.parseDuration demo.binaryString unit
    cases.refusedAfterRetry [] []
  = go.Done (None, Some (demo.apiErrorOf 400 "")).
Proof.
  apply (@permanent_failure_is_returned demo.codec demo.parseDuration
           demo.binaryString unit cases.refusedAfterRetry [] [] 1%nat).
  - unfold maxRetries. lia.
  - cbn. split; lia.
  - intros j Hj. exists (demo.apiErrorOf 500 ""). split.
    + cbn. rewrite bool_decide_eq_true_2 by lia. reflexivity.
    + eexists. split; [reflexivity|right; cbn; lia].
  - reflexivity.
Defined.

Lemma retries_exhausted_witness :
  infineon_send demo.parseDuration demo.binaryString unit
    (demo.clientOf (inr (demo.apiErrorOf 500 "")) (inr go.io_EOF)) [] []
  = go.Done (None,
             Some (go.wrapError "max retries reached: "
                                (demo.apiErrorOf 500 "")))
  /\ infineon_stream demo.parseDuration demo.binaryString unit
       (demo.clientOf (inr go.io_EOF) (inr (demo.apiErrorOf 429 ""))) [] []
     = go.Done [errorEvent (demo.apiErrorOf 429 "")].
Proof.
  split.
  - apply (@retries_exhausted demo.codec demo.parseDuration
             demo.binaryString unit
             (demo.clientOf (inr (demo.apiErrorOf 500 "")) (inr go.io_EOF))
             [] [] (demo.apiErrorOf 500 "") _ eq_refl).
    + right. cbn. lia.
    + intros j Hj. exists (demo.apiErrorOf 500 "").
      split; [reflexivity|]. eexists. split; [reflexivity|right; cbn; lia].
    + reflexivity.
  - apply (@retries_exhausted demo.codec demo.parseDuration
             demo.binaryString unit
             (demo.clientOf (inr go.io_EOF) (inr (demo.apiErrorOf 429 "")))
             [] [] (demo.apiErrorOf 429 "") _ eq_refl).
    + left. reflexivity.
    + intros j Hj. exists (demo.apiErrorOf 429 "").
      split; [reflexivity|]. eexists. split; [reflexivity|left; reflexivity].
    + reflexivity.
Defined.

Lemma stream_transport_error_witness :
  exists body,
    infineon_stream demo.parseDuration demo.binaryString unit
      (demo.clientOf (inr go.io_EOF) (inl cases.broken)) [] []
    = go.Done (event EventContentStart
               :: body ++ [errorEvent (go.errorString "connection reset")])
    /\ body = [contentEvent EventContentDelta "Hel";
               contentEvent EventContentDelta "lo"].
Proof.
  destruct (@stream_transport_error demo.codec demo.parseDuration
              demo.binaryString unit
              (demo.clientOf (inr go.io_EOF) (inl cases.broken)) [] []
              cases.broken (go.errorString "connection reset")
              eq_refl eq_refl) as (body & Hrun & Hbody & _).
  exists body. split; [exact Hrun|exact Hbody].
Defined.

Lemma content_deltas_add_up_witness :
  exists evs response,
    infineon_stream demo.parseDuration demo.binaryString unit
      (demo.clientOf (inr go.io_EOF) (inl cases.spoken)) [] []
    = go.Done evs
    /\ textOf evs = ["Hel"; "lo"]
    /\ Content response = concatFragments (textOf evs).
Proof.
  destruct (@content_deltas_add_up demo.codec demo.parseDuration
              demo.binaryString unit
              (demo.clientOf (inr go.io_EOF) (inl cases.spoken)) [] []
              cases.spoken eq_refl eq_refl)
    as (evs & response & Hrun & _ & Htext & Hcontent).
  exists evs, response. split; [exact Hrun|]. split; [exact Htext|exact Hcontent].
Defined.

Lemma delta_outside_slice_witness :
  handleToolCallDelta [] (demo.toolDelta 5 None (Some "n") (Some "a"))
  = ([], [])
  /\ handleToolCallDelta [] (demo.toolDelta 5 (Some "x") (Some "n") (Some "a"))
     = ([{| message.ID := "x"; message.Name := ""; message.Input := "" |}],
        [toolEvent EventToolUseStart
           {| message.ID := "x"; message.Name := ""; message.Input := "" |}]).
Proof.
  split.
  - apply (delta_outside_slice []
             (demo.toolDelta 5 None (Some "n") (Some "a")));
      [reflexivity|right; cbn; lia].
  - apply (delta_outside_slice []
             (demo.toolDelta 5 (Some "x") (Some "n") (Some "a")) );
      [reflexivity|right; cbn; lia].
Defined.

Lemma convertMessage_tool_and_user_witness :
  convertMessage demo.binaryString cases.toolMessage
  = [ openai.OfTool {| openai.tm_Role := "tool"; openai.tm_Content := "ok";
                       openai.tm_ToolCallID := "a" |};
      openai.OfTool {| openai.tm_Role := "tool";
                       openai.tm_Content := "failed";
                       openai.tm_ToolCallID := "b" |} ].
Proof.
  apply (@convertMessage_tool_and_user demo.codec demo.binaryString
           cases.toolMessage). reflexivity.
Defined.

Lemma convertTools_converts_in_place_witness :
  convertTools unit demo.streaming [demo.badTool; demo.goodTool] !! 1%nat
  = Some {| openai.tp_Type := "function"; openai.tp_Function_Name := "ls";
            openai.tp_Function_Description := Some "list files";
            openai.tp_Function_Parameters := Some "{}" |}.
Proof.
  exact (proj2 (@convertTools_converts_in_place demo.codec unit
                  demo.streaming [demo.badTool; demo.goodTool])
               1%nat demo.goodTool "{}" eq_refl eq_refl).
Defined.


Lemma send_copies_tool_calls_witness :
  exists response,
    infineon_send demo.parseDuration demo.binaryString unit
      (demo.clientOf (inl cases.completion) (inr go.io_EOF)) [] []
    = go.Done (Some response, None)
    /\ ToolCalls response = [].
Proof.
  destruct (@send_copies_tool_calls demo.codec demo.parseDuration
              demo.binaryString unit
              (demo.clientOf (inl cases.completion) (inr go.io_EOF)) [] []
              cases.completion demo.plainChoice [] eq_refl eq_refl)
    as (response & Hrun & Hcalls).
  exists response. split; [exact Hrun|exact Hcalls].
Defined.

Lemma cleanMessages_unchanged_iff_witness :
  cleanMessages [cases.toolMessage; demo.assistantMessage]
  = [cases.toolMessage; demo.assistantMessage].
Proof.
  apply (proj1 (cleanMessages_unchanged_iff
                  [cases.toolMessage; demo.assistantMessage])).
  repeat constructor; discriminate.
Defined.
